(** * Pecan Pico 10 tracker: beacon thread, debug shell, collector header
      and compiled configuration, embedded in Rocq.

    The development follows the translation units it models:

    - [Collector]: the status-bit macros and the [dataPoint_t] layout of
      [source/threads/collector.h];
    - [Config]: the compiled default configuration of [config.c];
    - [Shell]: the debug-console commands ([debugOnUSB], [printPicture],
      [readLog], [printConfig], [send_aprs_message]);
    - [Beacon]: the beacon thread [bcnThread];
    - [Portab]: the radio list and the I/O line reader of [portab.c].

    Integers of the C code are carried as [Z]; where the C type is narrower
    than the value could be, the wrap-around is written out.  Calls into
    parts of the firmware that sit outside these units (RTOS, radio
    manager, APRS encoder, packet pool, collector thread) are answered by
    an explicit environment and recorded as events. *)

From Stdlib Require Import ZArith List String Ascii Bool Lia.
Import ListNotations.
Open Scope string_scope.
Open Scope list_scope.
Open Scope Z_scope.

(* ===================================================================== *)
(** * collector.h *)
(* ===================================================================== *)

Module Collector.

(** ** The preprocessor view of the status macros

    The macros of collector.h are object-like and are never parenthesised
    on the right-hand side of the [*_SHIFT] definitions, so what a use of
    one of them means is decided only after textual replacement.  They are
    therefore kept as token lists, expanded the way the preprocessor does
    it, and then read as a C constant expression over [+], [<<] and
    parentheses. *)

Inductive token : Type :=
| TNum (n : Z)
| TId (name : string)
| TPlus
| TShl
| TLParen
| TRParen.

(** The [#define] lines 8-24 of collector.h, in file order. *)
Definition defines : list (string * list token) :=
  [ ("BME_STATUS_BITS",      [TNum 2]);
    ("BME_STATUS_MASK",      [TNum 0x3]);
    ("BME_OK_VALUE",         [TNum 0x0]);
    ("BME_FAIL_VALUE",       [TNum 0x1]);
    ("BME_NOT_FITTED_VALUE", [TNum 0x2]);
    ("BME_ALL_STATUS_MASK",  [TNum 0x3F]);
    ("BME_ALL_STATUS_SHIFT", [TNum 8]);
    ("BMEI1_STATUS_SHIFT",   [TId "BME_ALL_STATUS_SHIFT"]);
    ("BMEI1_STATUS_MASK",
       [TLParen; TId "BME_STATUS_MASK"; TShl; TId "BMEI1_STATUS_SHIFT"; TRParen]);
    ("BMEE1_STATUS_SHIFT",
       [TId "BMEI1_STATUS_SHIFT"; TPlus; TId "BME_STATUS_BITS"]);
    ("BMEE1_STATUS_MASK",
       [TLParen; TId "BME_STATUS_MASK"; TShl; TId "BMEE1_STATUS_SHIFT"; TRParen]);
    ("BMEE2_STATUS_SHIFT",
       [TId "BMEI1_STATUS_SHIFT"; TPlus; TId "BME_STATUS"; TRParen; TId "BITS"]);
    ("BMEE2_STATUS_MASK",
       [TLParen; TId "BME_STATUS_MASK"; TShl; TId "BMEE2_STATUS_SHIFT"; TRParen]) ].

Fixpoint lookup (name : string) (ds : list (string * list token))
  : option (list token) :=
  match ds with
  | [] => None
  | (n, body) :: ds' => if String.eqb n name then Some body else lookup name ds'
  end.

(** Macro replacement with rescanning: an identifier that names a macro is
    replaced by the expansion of its body, any other token is kept.  The
    fuel bounds the nesting depth of replacements. *)
Fixpoint expand (fuel : nat) (ts : list token) : list token :=
  match fuel with
  | O => ts
  | S fuel' =>
      flat_map
        (fun t =>
           match t with
           | TId name =>
               match lookup name defines with
               | Some body => expand fuel' body
               | None => [t]
               end
           | _ => [t]
           end) ts
  end.

(** Recursive-descent reading of the expanded tokens.  [+] binds tighter
    than [<<]; both associate to the left.  An identifier left over after
    expansion is an undeclared name and makes the expression ill-formed. *)
Fixpoint parse_shift (fuel : nat) (ts : list token) : option (Z * list token) :=
  match fuel with
  | O => None
  | S fuel' =>
      match parse_add fuel' ts with
      | Some (v, rest) => shift_rest fuel' v rest
      | None => None
      end
  end
with shift_rest (fuel : nat) (acc : Z) (ts : list token) : option (Z * list token) :=
  match fuel with
  | O => None
  | S fuel' =>
      match ts with
      | TShl :: ts' =>
          match parse_add fuel' ts' with
          | Some (v, rest) => shift_rest fuel' (Z.shiftl acc v) rest
          | None => None
          end
      | _ => Some (acc, ts)
      end
  end
with parse_add (fuel : nat) (ts : list token) : option (Z * list token) :=
  match fuel with
  | O => None
  | S fuel' =>
      match parse_prim fuel' ts with
      | Some (v, rest) => add_rest fuel' v rest
      | None => None
      end
  end
with add_rest (fuel : nat) (acc : Z) (ts : list token) : option (Z * list token) :=
  match fuel with
  | O => None
  | S fuel' =>
      match ts with
      | TPlus :: ts' =>
          match parse_prim fuel' ts' with
          | Some (v, rest) => add_rest fuel' (acc + v) rest
          | None => None
          end
      | _ => Some (acc, ts)
      end
  end
with parse_prim (fuel : nat) (ts : list token) : option (Z * list token) :=
  match fuel with
  | O => None
  | S fuel' =>
      match ts with
      | TNum n :: rest => Some (n, rest)
      | TLParen :: ts' =>
          match parse_shift fuel' ts' with
          | Some (v, TRParen :: rest) => Some (v, rest)
          | _ => None
          end
      | _ => None
      end
  end.

(** A token list is a constant expression when it is read completely. *)
Definition eval_tokens (ts : list token) : option Z :=
  match parse_shift 64 ts with
  | Some (v, []) => Some v
  | _ => None
  end.

(** The value a use of macro [name] has in an expression, if any. *)
Definition macro_value (name : string) : option Z :=
  match lookup name defines with
  | Some body => eval_tokens (expand 8 body)
  | None => None
  end.

(** A status field of [BME_STATUS_BITS] bits at a given shift covers the
    bit positions [shift .. shift + BME_STATUS_BITS - 1]. *)
Definition field_bits (shift : Z) : list Z :=
  map (fun k => shift + Z.of_nat k) (seq 0 2).

(** ** gpsState_t and dataPoint_t *)

Inductive gpsState_t : Type :=
| GPS_LOCKED1
| GPS_LOCKED2
| GPS_LOSS
| GPS_LOWBATT1
| GPS_LOWBATT2
| GPS_LOG
| GPS_OFF
| GPS_ERROR
| GPS_FIXED.

Record dataPoint_t : Type := {
  adc_vsol : Z;
  adc_vbat : Z;
  pac_vsol : Z;
  pac_vbat : Z;
  pac_pbat : Z;
  pac_psol : Z;
  light_intensity : Z;
  gps_state : gpsState_t;
  gps_sats : Z;
  gps_ttff : Z;
  gps_pdop : Z;
  gps_alt : Z;
  gps_lat : Z;
  gps_lon : Z;
  sen_i1_press : Z;
  sen_e1_press : Z;
  sen_e2_press : Z;
  sen_i1_temp : Z;
  sen_e1_temp : Z;
  sen_e2_temp : Z;
  sen_i1_hum : Z;
  sen_e1_hum : Z;
  sen_e2_hum : Z;
  dummy2 : Z;
  stm32_temp : Z;
  si446x_temp : Z;
  reset : Z;
  id : Z;
  gps_time : Z;
  sys_time : Z;
  sys_error : Z;
  gpio : Z
}.

(** [hasGPSacquiredLock(tp)] *)
Definition hasGPSacquiredLock (tp : dataPoint_t) : bool :=
  match gps_state tp with
  | GPS_LOCKED1 | GPS_LOCKED2 => true
  | _ => false
  end.

End Collector.

(* ===================================================================== *)
(** * System time (chconf.h / chtime.h / chvt.h of the RTOS) *)
(* ===================================================================== *)

Module ChTime.

(** The two settings of chconf.h that the time macros depend on.  chconf.h
    is not among the modelled sources, so both stay parameters: the width
    in bits of [systime_t] and [sysinterval_t], and the tick rate. *)
Record chconf : Type := {
  CH_CFG_ST_RESOLUTION : Z;
  CH_CFG_ST_FREQUENCY : Z
}.

Section Tick.
Variable ch : chconf.

(** Conversion to the unsigned tick type. *)
Definition wrap (x : Z) : Z := x mod 2 ^ CH_CFG_ST_RESOLUTION ch.

(** Modelled from the spec: [TIME_S2I(secs)] of the RTOS (chtime.h, absent
    from the modelled sources): an interval of [secs] seconds, in ticks of
    the system timer, converted to the tick type. *)
Definition TIME_S2I (secs : Z) : Z := wrap (secs * CH_CFG_ST_FREQUENCY ch).

(** [a - b] and [a + b] on [sysinterval_t] / [systime_t]. *)
Definition tick_sub (a b : Z) : Z := wrap (a - b).
Definition tick_add (a b : Z) : Z := wrap (a + b).

(** Modelled from the spec: [chVTTimeElapsedSinceX(start)] of the RTOS
    (chvt.h, absent from the modelled sources), the elapsed-time test of
    the beacon thread: the distance from [start] to the current reading
    [now] of the tick counter, in the counter's own modular arithmetic. *)
Definition chVTTimeElapsedSinceX (now start : Z) : Z := tick_sub now start.
End Tick.

End ChTime.

(* ===================================================================== *)
(** * config.c *)
(* ===================================================================== *)

Module Config.
Import ChTime.

(** Modelled from the spec: the modulation tag of config.h / types.h
    (absent from the modelled sources), a variant over 2FSK 9600 and
    AFSK 1200. *)
Inductive mod_t : Type := MOD_2FSK | MOD_AFSK.

(** Modelled from the spec: the frequency descriptor of config.h, either a
    fixed frequency in Hz or the request to pick the regional APRS
    frequency from the last known position. *)
Inductive freq_conf_t : Type :=
| FREQ_HZ (hz : Z)
| FREQ_APRS_DYNAMIC.

(** The camera resolutions and APRS symbols the initialiser names (their
    headers are absent from the modelled sources); the first member of
    each stands for a zero-initialised field. *)
Inductive resolution_t : Type := RES_NONE | RES_QVGA | RES_VGA.

Inductive aprs_sym_t : Type := SYM_NONE | SYM_BALLOON.

Record thread_conf_t : Type := {
  active : bool;
  cycle : Z
}.

Record radio_conf_t : Type := {
  pwr : Z;
  freq : freq_conf_t;
  mod_ : mod_t;
  preamble : Z
}.

Record thd_pos_conf_t : Type := {
  pos_thread_conf : thread_conf_t;
  pos_radio_conf : radio_conf_t;
  pos_call : string;
  pos_path : string;
  pos_symbol : aprs_sym_t;
  tel_enc_cycle : Z
}.

Record thd_img_conf_t : Type := {
  img_thread_conf : thread_conf_t;
  img_radio_conf : radio_conf_t;
  img_call : string;
  img_path : string;
  res : resolution_t;
  quality : Z;
  buf_size : Z
}.

Record thd_log_conf_t : Type := {
  log_thread_conf : thread_conf_t;
  log_radio_conf : radio_conf_t;
  log_call : string;
  log_path : string
}.

Record thd_rx_conf_t : Type := {
  rx_thread_conf : thread_conf_t;
  rx_radio_conf : radio_conf_t;
  rx_call : string;
  rx_path : string;
  rx_symbol : aprs_sym_t
}.

Record conf_t : Type := {
  pos_pri : thd_pos_conf_t;
  pos_sec : thd_pos_conf_t;
  img_pri : thd_img_conf_t;
  img_sec : thd_img_conf_t;
  log : thd_log_conf_t;
  rx : thd_rx_conf_t;
  rssi : Z;
  dig_active : bool;
  keep_cam_switched_on : bool;
  gps_on_vbat : Z;
  gps_off_vbat : Z;
  gps_onper_vbat : Z
}.

Section Compiled.
Variable ch : chconf.
(** [CYCLE_CONTINUOUSLY] of config.h, kept as a parameter. *)
Variable CYCLE_CONTINUOUSLY : Z.

(** The radio settings every thread of config.c is given. *)
Definition default_radio : radio_conf_t :=
  {| pwr := 0x7F; freq := FREQ_APRS_DYNAMIC; mod_ := MOD_AFSK; preamble := 200 |}.

(** [conf_t config = { ... }].  Members the initialiser does not name are
    zero-initialised by C. *)
Definition config : conf_t :=
  {| pos_pri :=
       {| pos_thread_conf := {| active := true; cycle := TIME_S2I ch 120 |};
          pos_radio_conf := default_radio;
          pos_call := "DL7AD-12";
          pos_path := "WIDE1-1";
          pos_symbol := SYM_BALLOON;
          tel_enc_cycle := TIME_S2I ch 10800 |};
     pos_sec :=
       {| pos_thread_conf := {| active := false; cycle := TIME_S2I ch 120 |};
          pos_radio_conf := default_radio;
          pos_call := "DL7AD-12";
          pos_path := "WIDE1-1";
          pos_symbol := SYM_BALLOON;
          tel_enc_cycle := TIME_S2I ch 10800 |};
     img_pri :=
       {| img_thread_conf := {| active := false; cycle := CYCLE_CONTINUOUSLY |};
          img_radio_conf := default_radio;
          img_call := "DL7AD-12";
          img_path := "";
          res := RES_QVGA;
          quality := 4;
          buf_size := 32 * 1024 |};
     img_sec :=
       {| img_thread_conf := {| active := false; cycle := CYCLE_CONTINUOUSLY |};
          img_radio_conf := default_radio;
          img_call := "DL7AD-14";
          img_path := "";
          res := RES_VGA;
          quality := 4;
          buf_size := 64 * 1024 |};
     log :=
       {| log_thread_conf := {| active := false; cycle := TIME_S2I ch 120 |};
          log_radio_conf := default_radio;
          log_call := "DL7AD-12";
          log_path := "WIDE1-1" |};
     rx :=
       {| rx_thread_conf := {| active := false; cycle := 0 |};
          rx_radio_conf := default_radio;
          rx_call := "DL7AD-14";
          rx_path := "WIDE1-1";
          rx_symbol := SYM_BALLOON |};
     rssi := 0x4F;
     dig_active := false;
     keep_cam_switched_on := false;
     gps_on_vbat := 5000;
     gps_off_vbat := 5000;
     gps_onper_vbat := 5000 |}.
End Compiled.

End Config.

(* ===================================================================== *)
(** * The debug shell commands *)
(* ===================================================================== *)

Module Shell.
Import Config.

(** ** libc and console *)

Definition isspace (c : ascii) : bool :=
  let n := Z.of_nat (nat_of_ascii c) in
  (n =? 32) || ((9 <=? n) && (n <=? 13)).

Definition digit_of (c : ascii) : option Z :=
  let n := Z.of_nat (nat_of_ascii c) in
  if (48 <=? n) && (n <=? 57) then Some (n - 48) else None.

Fixpoint skip_space (s : string) : string :=
  match s with
  | String c s' => if isspace c then skip_space s' else s
  | EmptyString => s
  end.

Fixpoint digits (acc : Z) (s : string) : Z :=
  match s with
  | String c s' =>
      match digit_of c with
      | Some d => digits (10 * acc + d) s'
      | None => acc
      end
  | EmptyString => acc
  end.

(** [atoi]: leading white space, an optional sign, then decimal digits up
    to the first other character.  (Values outside [int] are undefined in C
    and are not wrapped here.) *)
Definition atoi (s : string) : Z :=
  match skip_space s with
  | String "-" s' => - digits 0 s'
  | String "+" s' => digits 0 s'
  | s' => digits 0 s'
  end.

(** [argv[i]]; reading past the arguments the shell passed is outside what
    C defines and yields the empty string here. *)
Definition argv_at (argv : list string) (i : nat) : string := nth i argv "".

Definition crlf : string := String "013" (String "010" "").

(** A format that ends in [\r\n]. *)
Definition line (s : string) : string := (s ++ crlf)%string.

(** One [chprintf] call: the format and the values handed to it. *)
Inductive arg : Type :=
| AInt (z : Z)
| AStr (s : string)
| AMod (m : mod_t).

Record chprintf_call : Type := {
  fmt : string;
  args : list arg
}.

(** ** Configuration and log records as this unit sees them *)

Inductive freq_type_t : Type := FREQ_STATIC | FREQ_DYNAMIC.

Record freq_conf_t : Type := {
  type : freq_type_t;
  hz : Z
}.

Record aprs_conf_t : Type := {
  callsign : string;
  ssid : Z;
  symbol : Z;
  path : string
}.

Record module_conf_t : Type := {
  power : Z;
  frequency : freq_conf_t;
  modulation : mod_t;
  init_delay : Z;
  packet_spacing : Z;
  wdg_timeout : Z;
  aprs_conf : aprs_conf_t
}.

(** The members of [trackPoint_t] that [readLog] prints. *)
Record trackPoint_t : Type := {
  id : Z;
  gps_time : Z;
  gps_lat : Z;
  gps_lon : Z;
  gps_alt : Z;
  gps_sats : Z;
  gps_ttff : Z;
  adc_vbat : Z;
  adc_vsol : Z;
  pac_pbat : Z;
  sen_i1_press : Z;
  sen_i1_temp : Z;
  sen_i1_hum : Z
}.

(** ** Effects outside the console *)

(** A packet handle is what [aprs_encode_message] was asked to build. *)
Record packet_t : Type := {
  pkt_conf : aprs_conf_t;
  pkt_receiver : string;
  pkt_text : string;
  pkt_ack : bool
}.

Inductive radio_call : Type :=
| Encode (p : packet_t)
| Transmit (p : packet_t) (f : freq_conf_t) (pwr : Z) (m : mod_t).

(** The state the commands can touch: the global [debug_on_usb], what has
    been written to the stream [chp], the calls made into the encoder and
    the radio, and the lookups made through [getFrequency]. *)
Record shell_state : Type := {
  debug_on_usb : bool;
  console : list chprintf_call;
  radio : list radio_call;
  lookups : list freq_conf_t
}.

(** [bool debug_on_usb = true;] *)
Definition boot_state : shell_state :=
  {| debug_on_usb := true; console := []; radio := []; lookups := [] |}.

Definition chprintf (f : string) (a : list arg) (st : shell_state) : shell_state :=
  {| debug_on_usb := debug_on_usb st;
     console := console st ++ [ {| fmt := f; args := a |} ];
     radio := radio st;
     lookups := lookups st |}.

Definition set_debug_on_usb (b : bool) (st : shell_state) : shell_state :=
  {| debug_on_usb := b;
     console := console st;
     radio := radio st;
     lookups := lookups st |}.

Definition call_radio (c : radio_call) (st : shell_state) : shell_state :=
  {| debug_on_usb := debug_on_usb st;
     console := console st;
     radio := radio st ++ [c];
     lookups := lookups st |}.

Definition note_lookup (f : freq_conf_t) (st : shell_state) : shell_state :=
  {| debug_on_usb := debug_on_usb st;
     console := console st;
     radio := radio st;
     lookups := lookups st ++ [f] |}.

(** ** debugOnUSB *)

Definition debugOnUSB (argc : Z) (argv : list string) (st : shell_state)
  : shell_state :=
  if argc <? 1 then
    let st := chprintf (line "Argument missing!") [] st in
    let st := chprintf (line "Argument 1: 1 for switch on, 0 for switch off") [] st in
    st
  else
    set_debug_on_usb (negb (atoi (argv_at argv 0) =? 0)) st.

(** ** readLog *)

Section Log.
(** [getLogBuffer(i)]: the address of log slot [i], or [NULL]; and the
    record stored at an address. *)
Variable getLogBuffer : Z -> option Z.
Variable flash : Z -> trackPoint_t.

Definition readLog_header : string :=
  line
    "addr,id,time,lat,lon,alt,sats,ttff,vbat,vsol,vsub,pbat,rbat,press,temp,hum,idimg".

Definition readLog_format : string :=
  line
    "%08x,%d,%d,%d.%05d,%d.%05d,%d,%d,%d,%d.%03d,%d.%03d,%d,%d.%01d,%2d.%02d,%2d.%01d".

Definition sign (x : Z) : Z := if 0 <? x then 1 else -1.

(** The arguments of the record line, in the order of the call. *)
Definition readLog_args (addr : Z) (tp : trackPoint_t) : list arg :=
  map AInt
    [ addr; id tp; gps_time tp;
      Z.quot (gps_lat tp) 10000000;
      Z.rem (sign (gps_lat tp) * Z.quot (gps_lat tp) 100) 100000;
      Z.quot (gps_lon tp) 10000000;
      Z.rem (sign (gps_lon tp) * Z.quot (gps_lon tp) 100) 100000;
      gps_alt tp;
      gps_sats tp; gps_ttff tp;
      Z.quot (adc_vbat tp) 1000; Z.rem (adc_vbat tp) 1000;
      Z.quot (adc_vsol tp) 1000; Z.rem (adc_vsol tp) 1000;
      pac_pbat tp;
      Z.quot (sen_i1_press tp) 10; Z.rem (sen_i1_press tp) 10;
      Z.quot (sen_i1_temp tp) 100; Z.rem (sen_i1_temp tp) 100;
      Z.quot (sen_i1_hum tp) 10; Z.rem (sen_i1_hum tp) 10 ].

Definition readLog_line (addr : Z) (tp : trackPoint_t) : chprintf_call :=
  {| fmt := readLog_format; args := readLog_args addr tp |}.

(** The [for] loop: [i] is a [uint16_t], so [i++] wraps at 65536; [tp] is
    the pointer [getLogBuffer] returned and [flash tp] the record behind
    it.  The loop has no bound of its own; [fuel] counts the iterations
    allowed and [None] says they did not suffice. *)
Fixpoint readLog_loop (fuel : nat) (i : Z) (st : shell_state)
  : option shell_state :=
  match fuel with
  | O => None
  | S fuel' =>
      match getLogBuffer i with
      | None => Some st
      | Some tp =>
          let st :=
            if id (flash tp) =? 0xFFFFFFFF then st
            else chprintf readLog_format (readLog_args tp (flash tp)) st in
          readLog_loop fuel' ((i + 1) mod 65536) st
      end
  end.

Definition readLog (fuel : nat) (argc : Z) (argv : list string)
    (st : shell_state) : option shell_state :=
  let st := chprintf readLog_header [] st in
  readLog_loop fuel 0 st.

(** The record lines owed to the slots [k], ..., [k + n - 1]: one line
    for a slot whose [id] is not 0xFFFFFFFF, none for an erased one. *)
Definition slot_lines (k n : nat) : list chprintf_call :=
  flat_map
    (fun j =>
       match getLogBuffer (Z.of_nat j) with
       | Some a =>
           if id (flash a) =? 0xFFFFFFFF then []
           else [readLog_line a (flash a)]
       | None => []
       end)
    (seq k n).

(** The slots among [0 .. n-1] that are in use. *)
Definition used_slots (n : nat) : list nat :=
  filter
    (fun j =>
       match getLogBuffer (Z.of_nat j) with
       | Some a => negb (id (flash a) =? 0xFFFFFFFF)
       | None => false
       end)
    (seq 0 n).
End Log.

(** ** printConfig *)

Section Modules.
(** The module table [config[]] and the geofence resolver
    [getFrequency]. *)
Variable config : Z -> module_conf_t.
Variable getFrequency : freq_conf_t -> Z.

Definition printConfig (argc : Z) (argv : list string) (st : shell_state)
  : shell_state :=
  if argc <? 1 then
    let st := chprintf (line "Argument missing!") [] st in
    let st := chprintf (line "Argument 1: Id of config") [] st in
    st
  else
    let id := atoi (argv_at argv 0) mod 256 in
    let st := chprintf (line "Config ID=%d") [AInt id] st in
    let st := chprintf (line "Power: %d") [AInt (power (config id))] st in
    let st :=
      match type (frequency (config id)) with
      | FREQ_STATIC =>
          let freq := hz (frequency (config id)) in
          if (freq / 1000) * 1000 =? freq then
            chprintf (line "Frequency: %d.%03d MHz")
              [AInt (freq / 1000000); AInt ((freq mod 1000000) / 1000)] st
          else
            chprintf (line "Frequency: %d.%03d MHz")
              [AInt (freq / 1000000); AInt (freq mod 1000000)] st
      | FREQ_DYNAMIC =>
          let st := note_lookup (frequency (config id)) st in
          let freq := getFrequency (frequency (config id)) in
          chprintf (line "Frequency: APRS region dependent (currently %d.%03d MHz)")
            [AInt (freq / 1000000); AInt ((freq mod 1000000) / 1000)] st
      end in
    let st := chprintf (line "Modulation: %d") [AMod (modulation (config id))] st in
    let st := chprintf (line "Initial Delay: %d") [AInt (init_delay (config id))] st in
    let st := chprintf (line "Packet Spacing: %d") [AInt (packet_spacing (config id))] st in
    let st := chprintf (line "Sleep config: xx") [] st in
    let st := chprintf (line "Trigger config: xx") [] st in
    let st := chprintf (line "Modulation config: xx") [] st in
    let st := chprintf (line "Protocol config: xx") [] st in
    let st := chprintf (line "SSDV config: xx") [] st in
    let st := chprintf (line "Watchdog timeout: %d") [AInt (wdg_timeout (config id))] st in
    st.

(** ** send_aprs_message *)

Definition aprs_encode_message (c : aprs_conf_t) (receiver text : string)
    (ack : bool) : packet_t :=
  {| pkt_conf := c; pkt_receiver := receiver; pkt_text := text; pkt_ack := ack |}.

Definition send_aprs_message (argc : Z) (argv : list string) (st : shell_state)
  : shell_state :=
  if argc <? 2 then
    let st := chprintf (line "Argument missing!") [] st in
    let st := chprintf (line "Argument 1: Destination") [] st in
    let st := chprintf (line "Argument 2: Message") [] st in
    st
  else
    let st := chprintf (line "Destination: %s") [AStr (argv_at argv 0)] st in
    let st := chprintf (line "Message: %s") [AStr (argv_at argv 1)] st in
    let packet :=
      aprs_encode_message (aprs_conf (config 2)) (argv_at argv 0) (argv_at argv 1) false in
    let st := call_radio (Encode packet) st in
    let st := call_radio (Transmit packet (frequency (config 2)) 127 MOD_AFSK) st in
    let st := chprintf (line "Message sent!") [] st in
    st.
End Modules.

(** The part of [printConfig]'s output that follows the frequency line. *)
Definition printConfig_tail (c : module_conf_t) : list chprintf_call :=
  [ {| fmt := line "Modulation: %d"; args := [AMod (modulation c)] |};
    {| fmt := line "Initial Delay: %d"; args := [AInt (init_delay c)] |};
    {| fmt := line "Packet Spacing: %d"; args := [AInt (packet_spacing c)] |};
    {| fmt := line "Sleep config: xx"; args := [] |};
    {| fmt := line "Trigger config: xx"; args := [] |};
    {| fmt := line "Modulation config: xx"; args := [] |};
    {| fmt := line "Protocol config: xx"; args := [] |};
    {| fmt := line "SSDV config: xx"; args := [] |};
    {| fmt := line "Watchdog timeout: %d"; args := [AInt (wdg_timeout c)] |} ].

(** The two lines [printConfig] writes before the frequency line. *)
Definition printConfig_head (id : Z) (c : module_conf_t) : list chprintf_call :=
  [ {| fmt := line "Config ID=%d"; args := [AInt id] |};
    {| fmt := line "Power: %d"; args := [AInt (power c)] |} ].

(** ** printPicture *)

(** What [printPicture] writes: bytes put on the stream [chp] and
    [TRACE_USB] lines, in program order. *)
Inductive usb_out : Type :=
| StreamPut (b : Z)
| TraceUsb (f : string) (a : list arg).

(** What [takePicture(&conf, false)] leaves behind: its return value, and
    the members [size_sampled] and [ram_buffer] of [conf].  The buffer is
    read as memory, by index. *)
Record picture : Type := {
  camera_found : bool;
  size_sampled : Z;
  ram_buffer : Z -> Z
}.

Section Picture.
(** [takePicture], called with the resolution, quality and buffer size
    that [printPicture] puts into [conf]. *)
Variable takePicture : resolution_t -> Z -> Z -> picture.

(** The [for] loop over the sampled bytes, [n] iterations from index [i].
    [i] is a [uint32_t] below [size_sampled], so it does not wrap; the
    length announced is computed in [uint32_t]. *)
Fixpoint printPicture_loop (pic : picture) (n : nat) (i : Z)
    (start_detected : bool) (out : list usb_out) : bool * list usb_out :=
  match n with
  | O => (start_detected, out)
  | S n' =>
      let hit :=
        negb start_detected
        && (ram_buffer pic i =? 0xFF) && (ram_buffer pic (i + 1) =? 0xE0) in
      let out :=
        if hit then
          out ++ [ TraceUsb "DATA > image/jpeg,%d"
                     [AInt ((size_sampled pic - i + 2) mod 2 ^ 32)];
                   StreamPut 0xFF; StreamPut 0xD8 ]
        else out in
      let start_detected := start_detected || hit in
      let out :=
        if start_detected then out ++ [StreamPut (ram_buffer pic i)] else out in
      printPicture_loop pic n' (i + 1) start_detected out
  end.

Definition printPicture (argc : Z) (argv : list string) : list usb_out :=
  let pic := takePicture RES_QVGA 4 (16 * 1024) in
  if camera_found pic then
    let (start_detected, out) :=
      printPicture_loop pic (Z.to_nat (size_sampled pic)) 0 false [] in
    if start_detected then out
    else out ++ [ TraceUsb "DATA > image/jpeg,0" [];
                  TraceUsb "DATA > text/trace,no SOI flag found" [] ]
  else
    [ TraceUsb "DATA > image,jpeg,0" [];
      TraceUsb "DATA > error,no camera found" [] ].
End Picture.

(** The bytes put on the stream, in order. *)
Fixpoint stream_bytes (out : list usb_out) : list Z :=
  match out with
  | [] => []
  | StreamPut b :: out' => b :: stream_bytes out'
  | TraceUsb _ _ :: out' => stream_bytes out'
  end.

(** The buffer bytes at the [n] indices from [i] on. *)
Definition buffer_bytes (pic : picture) (i : Z) (n : nat) : list Z :=
  map (fun k => ram_buffer pic (i + Z.of_nat k)) (seq 0 n).

(** Whether the APP0 marker FF E0 sits at index [i] of the buffer. *)
Definition app0_at (pic : picture) (i : Z) : bool :=
  (ram_buffer pic i =? 0xFF) && (ram_buffer pic (i + 1) =? 0xE0).

(** A log record with another latitude, and a module with another static
    frequency. *)
Definition with_gps_lat (tp : trackPoint_t) (lat : Z) : trackPoint_t :=
  {| id := id tp; gps_time := gps_time tp; gps_lat := lat;
     gps_lon := gps_lon tp; gps_alt := gps_alt tp; gps_sats := gps_sats tp;
     gps_ttff := gps_ttff tp; adc_vbat := adc_vbat tp; adc_vsol := adc_vsol tp;
     pac_pbat := pac_pbat tp; sen_i1_press := sen_i1_press tp;
     sen_i1_temp := sen_i1_temp tp; sen_i1_hum := sen_i1_hum tp |}.

Definition with_static_hz (c : module_conf_t) (h : Z) : module_conf_t :=
  {| power := power c;
     frequency := {| type := FREQ_STATIC; hz := h |};
     modulation := modulation c;
     init_delay := init_delay c;
     packet_spacing := packet_spacing c;
     wdg_timeout := wdg_timeout c;
     aprs_conf := aprs_conf c |}.

End Shell.

(* ===================================================================== *)
(** * The beacon thread *)
(* ===================================================================== *)

Module Beacon.
Import ChTime Collector.

(** ** Configuration as this unit sees it *)

(** [conf->beacon]: the thread timing.  Its [sleep_conf] member is only
    ever handed to [p_sleep], whose verdict is an input of each cycle. *)
Record thd_conf_t : Type := {
  init_delay : Z;
  cycle : Z
}.

Record radio_conf_t : Type := {
  freq : Z;
  pwr : Z;
  mod_ : Config.mod_t;
  cca : Z
}.

Record bcn_app_conf_t : Type := {
  beacon : thd_conf_t;
  radio_conf : radio_conf_t;
  call : string;
  path : string;
  symbol : Z;
  run_once : bool
}.

(** [conf_sram.base] *)
Record base_conf_t : Type := {
  enabled : bool;
  base_call : string;
  base_path : string
}.

(** The members of the global [conf_sram] the thread reads. *)
Record conf_t : Type := {
  tel_enc_cycle : Z;
  base : base_conf_t
}.

(** ** Packets *)

(** Modelled from the spec: the four telemetry-configuration PDU kinds
    (PARM, UNIT, EQNS, BITS) give the value of [APRS_NUM_TELEM_GROUPS],
    a macro of aprs.h, which is not among the modelled sources. *)
Definition APRS_NUM_TELEM_GROUPS : Z := 4.

(** An APRS message as the encoder is asked to build it. *)
Record aprs_message : Type := {
  originator : string;
  via : string;
  recipient : string;
  ack_requested : bool
}.

(** Modelled from the spec: [aprs_compose_aprsd_message(call, path,
    recipient)] of aprs.c, which is not among the modelled sources.  It
    builds the message listing the stations heard directly, from [call]
    over [path] to [recipient]; the message carries no message number, so
    no acknowledgment is requested (the comment at the call site says the
    same). *)
Definition aprs_compose_aprsd_message (call path recipient : string)
  : aprs_message :=
  {| originator := call; via := path; recipient := recipient;
     ack_requested := false |}.

(** What an encoder call asks for.  The encoders themselves live in
    aprs.c; a call either yields a packet object for the request or
    [NULL]. *)
Inductive pdu : Type :=
| TelemetryConfiguration (originator path destination : string) (type : Z)
| PositionAndTelemetry (call path : string) (symbol : Z)
    (dataPoint : option dataPoint_t) (extended : bool)
| Aprsd (m : aprs_message).

(** ** Environment and events *)

(** The three readings of [chVTGetSystemTime()] before the loop. *)
Record boot_in : Type := {
  now_conf : Z;
  now_time : Z;
  now_delay : Z
}.

(** What the rest of the firmware answers during one pass of the loop:
    the collector's reply to [chMsgSend] (a pointer, possibly [NULL]), the
    verdict of [p_sleep], the tick counter as [chVTTimeElapsedSinceX]
    reads it, whether an encoder call returns a packet, the result of
    [transmitOnRadio], and the value [waitForTrigger] returns. *)
Record cycle_in : Type := {
  in_dataPoint : option dataPoint_t;
  in_p_sleep : bool;
  in_now : Z;
  in_encode : pdu -> bool;
  in_radio : pdu -> bool;
  in_trigger : Z
}.

(** The calls the thread makes, in program order.  (TRACE output and
    [pktDisplayFrequencyCode] only format text and are left out.) *)
Inductive event : Type :=
| InitDataCollector
| SleepUntil (t : Z)
| Collect
| Encoded (p : pdu) (ok : bool)
| TransmitOnRadio (p : pdu) (freq step chan pwr : Z) (m : Config.mod_t)
    (cca : Z) (ok : bool)
| Sleep (ticks : Z)
| WaitForTrigger (prev cycle : Z)
| Exit.

(** The locals that live across iterations. *)
Record bcn_state : Type := {
  last_conf_transmission : Z;
  time : Z
}.

Inductive outcome : Type :=
| Running (st : bcn_state)
| Exited.

Definition is_null {A : Type} (p : option A) : bool :=
  match p with None => true | Some _ => false end.

Section Thread.
Variable ch : chconf.
(** [isPositionValid(dataPoint)], a macro that is not among the modelled
    sources.  It is applied to the pointer before the [NULL] test, so it
    is a function of the pointer. *)
Variable isPositionValid : option dataPoint_t -> bool.
Variable conf_sram : conf_t.
Variable conf : bcn_app_conf_t.

(** [transmitOnRadio(packet, freq, 0, 0, pwr, mod, cca)] *)
Definition transmitOnRadio (i : cycle_in) (p : pdu) : event :=
  TransmitOnRadio p (freq (radio_conf conf)) 0 0 (pwr (radio_conf conf))
    (mod_ (radio_conf conf)) (cca (radio_conf conf)) (in_radio i p).

Definition telemetry_pdu (type : Z) : pdu :=
  TelemetryConfiguration (call conf) (path conf) (call conf) type.

(** The values [type] takes in the [for] loop. *)
Definition telemetry_types : list Z :=
  map Z.of_nat (seq 0 (Z.to_nat APRS_NUM_TELEM_GROUPS)).

(** Body of the [for] loop over the telemetry groups. *)
Definition telemetry_step (i : cycle_in) (type : Z) : list event :=
  let packet := telemetry_pdu type in
  (if in_encode i packet
   then [Encoded packet true; transmitOnRadio i packet]
   else [Encoded packet false])
  ++ [Sleep (TIME_S2I ch 5)].

Definition telemetry_group (i : cycle_in) : list event :=
  flat_map (telemetry_step i) telemetry_types.

(** The guard of the telemetry-configuration block. *)
Definition telemetry_due (st : bcn_state) (i : cycle_in) : bool :=
  negb (tel_enc_cycle conf_sram =? 0)
  && (tel_enc_cycle conf_sram
        <=? chVTTimeElapsedSinceX ch (in_now i) (last_conf_transmission st)).

Definition position_pdu (i : cycle_in) : pdu :=
  PositionAndTelemetry (call conf) (path conf) (symbol conf) (in_dataPoint i) true.

(** Encode and transmit the position packet. *)
Definition position_step (i : cycle_in) : list event :=
  let packet := position_pdu i in
  if in_encode i packet
  then [Encoded packet true; transmitOnRadio i packet; Sleep (TIME_S2I ch 5)]
  else [Encoded packet false].

Definition aprsd_pdu : pdu :=
  let call_ := if enabled (base conf_sram) then base_call (base conf_sram) else call conf in
  let path_ := if enabled (base conf_sram) then base_path (base conf_sram) else path conf in
  Aprsd (aprs_compose_aprsd_message (call conf) path_ call_).

(** Encode and transmit the APRSD packet. *)
Definition aprsd_step (i : cycle_in) : list event :=
  let packet := aprsd_pdu in
  if in_encode i packet
  then [Encoded packet true; transmitOnRadio i packet; Sleep (TIME_S2I ch 5)]
  else [Encoded packet false].

(** The tail of the loop body: [run_once] exit or wait for the trigger. *)
Definition next_trigger (st : bcn_state) (i : cycle_in) : list event * outcome :=
  if run_once conf then ([Exit], Exited)
  else ([WaitForTrigger (time st) (cycle (beacon conf))],
        Running {| last_conf_transmission := last_conf_transmission st;
                   time := in_trigger i |}).

(** One pass of [while(true)].  For a [NULL] snapshot the source evaluates
    [isPositionValid(dataPoint)] and the [TRACE_INFO] argument
    [dataPoint->gps_state] before and after the [NULL] test; C leaves both
    reads undefined, and the model shows only the branch that is taken. *)
Definition bcn_cycle (st : bcn_state) (i : cycle_in) : list event * outcome :=
  let dataPoint := in_dataPoint i in
  if negb (in_p_sleep i) then
    if negb (isPositionValid dataPoint) || is_null dataPoint then
      (* continue *)
      ([Collect; Sleep (TIME_S2I ch 60)], Running st)
    else
      let due := telemetry_due st i in
      let conf_events := if due then telemetry_group i else [] in
      let st :=
        if due then
          {| last_conf_transmission :=
               tick_add ch (last_conf_transmission st) (tel_enc_cycle conf_sram);
             time := time st |}
        else st in
      let (tail_events, out) := next_trigger st i in
      ([Collect] ++ conf_events ++ position_step i ++ aprsd_step i ++ tail_events,
       out)
  else
    let (tail_events, out) := next_trigger st i in
    ([Collect] ++ tail_events, out).

(** The locals after the telemetry-configuration block. *)
Definition after_telemetry (st : bcn_state) (i : cycle_in) : bcn_state :=
  if telemetry_due st i then
    {| last_conf_transmission :=
         tick_add ch (last_conf_transmission st) (tel_enc_cycle conf_sram);
       time := time st |}
  else st.

(** The code before the loop. *)
Definition bcn_init (b : boot_in) : list event * bcn_state :=
  ([InitDataCollector;
    SleepUntil (tick_add ch (now_delay b) (init_delay (beacon conf)))],
   {| last_conf_transmission := tick_sub ch (now_conf b) (tel_enc_cycle conf_sram);
      time := now_time b |}).

(** The loop, run against the answers [ins] of the environment for its
    first passes.  The loop itself has no exit but [chThdExit]. *)
Fixpoint bcn_loop (st : bcn_state) (ins : list cycle_in) : list event :=
  match ins with
  | [] => []
  | i :: ins' =>
      let (events, out) := bcn_cycle st i in
      events ++
      match out with
      | Running st' => bcn_loop st' ins'
      | Exited => []
      end
  end.

Definition bcnThread (b : boot_in) (ins : list cycle_in) : list event :=
  let (events, st) := bcn_init b in
  events ++ bcn_loop st ins.

(** ** Observations on a trace *)

(** A cycle goes on to transmit when the sleep condition is not met and
    the snapshot passes the validity test. *)
Definition transmitting (i : cycle_in) : bool :=
  negb (in_p_sleep i)
  && negb (negb (isPositionValid (in_dataPoint i)) || is_null (in_dataPoint i)).

(** The first cycle of a run that transmits, following the thread's own
    control flow (a sleeping cycle ends a [run_once] thread). *)
Fixpoint first_transmitting (ins : list cycle_in) : option cycle_in :=
  match ins with
  | [] => None
  | i :: ins' =>
      if transmitting i then Some i
      else if in_p_sleep i && run_once conf then None
      else first_transmitting ins'
  end.

(** At that cycle the tick counter is less than a full turn minus
    [tel_enc_cycle] past the reading taken at thread start. *)
Definition counter_in_window (b : boot_in) (ins : list cycle_in) : bool :=
  match first_transmitting ins with
  | Some i =>
      tick_sub ch (in_now i) (now_conf b) + tel_enc_cycle conf_sram
        <? 2 ^ CH_CFG_ST_RESOLUTION ch
  | None => true
  end.
End Thread.

(** The encoder calls of a trace with their results, in order. *)
Fixpoint encodes (tr : list event) : list (pdu * bool) :=
  match tr with
  | [] => []
  | Encoded p ok :: tr' => (p, ok) :: encodes tr'
  | _ :: tr' => encodes tr'
  end.

(** The packets handed to the radio, in order. *)
Fixpoint transmitted (tr : list event) : list pdu :=
  match tr with
  | [] => []
  | TransmitOnRadio p _ _ _ _ _ _ _ :: tr' => p :: transmitted tr'
  | _ :: tr' => transmitted tr'
  end.

(** The durations of the [chThdSleep] calls, in order. *)
Fixpoint sleeps (tr : list event) : list Z :=
  match tr with
  | [] => []
  | Sleep t :: tr' => t :: sleeps tr'
  | _ :: tr' => sleeps tr'
  end.

Definition is_telemetry_configuration (p : pdu) : bool :=
  match p with TelemetryConfiguration _ _ _ _ => true | _ => false end.

Definition is_position (p : pdu) : bool :=
  match p with PositionAndTelemetry _ _ _ _ _ => true | _ => false end.

(** The APRSD messages the encoder was asked for, in order. *)
Fixpoint aprsd_messages (tr : list event) : list aprs_message :=
  match tr with
  | [] => []
  | Encoded (Aprsd m) _ :: tr' => m :: aprsd_messages tr'
  | _ :: tr' => aprsd_messages tr'
  end.

(** Whether a call carries a telemetry-configuration packet. *)
Definition telemetry_configuration_event (e : event) : bool :=
  match e with
  | Encoded p _ => is_telemetry_configuration p
  | TransmitOnRadio p _ _ _ _ _ _ _ => is_telemetry_configuration p
  | _ => false
  end.

(** A trace in which no call carries a telemetry-configuration packet. *)
Definition free_of_telemetry_configuration (tr : list event) : bool :=
  forallb (fun e => negb (telemetry_configuration_event e)) tr.

(** What is handed to the radio is what the encoders returned. *)
Definition handed_over (tr : list event) : Prop :=
  transmitted tr = map fst (filter snd (encodes tr)).

(** Whether the last call of a trace is [waitForTrigger]. *)
Definition ends_waiting (tr : list event) : bool :=
  match last tr Exit with
  | WaitForTrigger _ _ => true
  | _ => false
  end.

(** ** Further observations on a run *)

Section Run.
Variable ch : chconf.
Variable isPositionValid : option dataPoint_t -> bool.
Variable conf_sram : conf_t.
Variable conf : bcn_app_conf_t.

(** Where the loop stands after the passes answered by [ins]: the locals,
    or gone through [chThdExit]. *)
Fixpoint bcn_loop_end (st : bcn_state) (ins : list cycle_in) : outcome :=
  match ins with
  | [] => Running st
  | i :: ins' =>
      match snd (bcn_cycle ch isPositionValid conf_sram conf st i) with
      | Running st' => bcn_loop_end st' ins'
      | Exited => Exited
      end
  end.

(** A cycle that is awake but has no valid position: it ends in
    [continue]. *)
Definition waiting_for_position (i : cycle_in) : bool :=
  negb (in_p_sleep i)
  && (negb (isPositionValid (in_dataPoint i)) || is_null (in_dataPoint i)).

(** The passes of the loop that are run on the answers [ins]: under
    [run_once] the thread is gone after the first pass that does not end
    in [continue]. *)
Fixpoint executed (ins : list cycle_in) : list cycle_in :=
  match ins with
  | [] => []
  | i :: ins' =>
      i :: (if run_once conf && negb (waiting_for_position i) then []
            else executed ins')
  end.

(** A call of [transmitOnRadio] with the settings of [conf->radio_conf]. *)
Definition with_configured_radio (e : event) : Prop :=
  match e with
  | TransmitOnRadio _ f step chan p m c _ =>
      f = freq (radio_conf conf) /\ step = 0 /\ chan = 0 /\
      p = pwr (radio_conf conf) /\ m = mod_ (radio_conf conf) /\
      c = cca (radio_conf conf)
  | _ => True
  end.
End Run.

(** The snapshots the position encoder was given, in order. *)
Fixpoint position_snapshots (tr : list event) : list (option dataPoint_t) :=
  match tr with
  | [] => []
  | Encoded (PositionAndTelemetry _ _ _ dp _) _ :: tr' => dp :: position_snapshots tr'
  | _ :: tr' => position_snapshots tr'
  end.

(** The telemetry-configuration packets the encoder was asked for, in
    order. *)
Fixpoint telemetry_requests (tr : list event) : list pdu :=
  match tr with
  | [] => []
  | Encoded (TelemetryConfiguration o p d t) _ :: tr' =>
      TelemetryConfiguration o p d t :: telemetry_requests tr'
  | _ :: tr' => telemetry_requests tr'
  end.

(** A trace without its [waitForTrigger] calls. *)
Fixpoint without_waits (tr : list event) : list event :=
  match tr with
  | [] => []
  | WaitForTrigger _ _ :: tr' => without_waits tr'
  | e :: tr' => e :: without_waits tr'
  end.

(** The arguments of the [waitForTrigger] calls, in order. *)
Fixpoint waits (tr : list event) : list (Z * Z) :=
  match tr with
  | [] => []
  | WaitForTrigger prev c :: tr' => (prev, c) :: waits tr'
  | _ :: tr' => waits tr'
  end.

End Beacon.

(* ===================================================================== *)
(** * portab.c *)
(* ===================================================================== *)

Module Portab.

(** The radio units and chip types [radio_list] names (pkttypes.h and
    portab.h are absent from the modelled sources). *)
Inductive radio_unit_t : Type := PKT_RADIO_NONE | PKT_RADIO_1.

Inductive radio_type_t : Type := RADIO_TYPE_UNSET | SI4464.

(** Band limits are macros of portab.h and stay parameters. *)
Record radio_band_t : Type := {
  start : Z;
  end_ : Z;
  step : Z;
  def_aprs : Z
}.

Record radio_config_t : Type := {
  unit_ : radio_unit_t;
  type : radio_type_t;
  band : list (option radio_band_t)
}.

Definition is_none (u : radio_unit_t) : bool :=
  match u with PKT_RADIO_NONE => true | PKT_RADIO_1 => false end.

Section Board.
Variable band_2m : radio_band_t.

(** [const radio_config_t radio_list[]]; the members the terminating
    entry does not name are zero-initialised. *)
Definition radio_list : list radio_config_t :=
  [ {| unit_ := PKT_RADIO_1; type := SI4464; band := [Some band_2m; None] |};
    {| unit_ := PKT_RADIO_NONE; type := RADIO_TYPE_UNSET; band := [None; None] |} ].
End Board.

Section Radios.
(** The array the loop walks. *)
Variable radios : list radio_config_t.

(** [while(radio_list[i++].unit != PKT_RADIO_NONE);] with [i] a
    [uint8_t]: the value of [i] when the loop ends.  [None] when the fuel
    runs out or the loop reads past the array. *)
Fixpoint pktGetNumRadios_loop (fuel : nat) (i : Z) : option Z :=
  match fuel with
  | O => None
  | S fuel' =>
      match nth_error radios (Z.to_nat i) with
      | None => None
      | Some r =>
          let i' := (i + 1) mod 256 in
          if is_none (unit_ r) then Some i' else pktGetNumRadios_loop fuel' i'
      end
  end.

(** [return --i;] *)
Definition pktGetNumRadios (fuel : nat) : option Z :=
  match pktGetNumRadios_loop fuel 0 with
  | Some i => Some ((i - 1) mod 256)
  | None => None
  end.
End Radios.

(** [pktReadIOlines], on the four values [palReadLine] returns for
    [LINE_GPIO_PIN1], [LINE_IO_TXD], [LINE_IO_RXD] and [LINE_GPIO_PIN2];
    the result is converted to [uint8_t]. *)
Definition pktReadIOlines (gpio_pin1 io_txd io_rxd gpio_pin2 : Z) : Z :=
  Z.lor (Z.lor (Z.lor gpio_pin1 (Z.shiftl io_txd 1)) (Z.shiftl io_rxd 2)) gpio_pin2
    mod 256.

End Portab.

(* ===================================================================== *)
(** * Sample inputs *)
(* ===================================================================== *)

(** Concrete configurations and environments on which the models are run. *)
Module Samples.
Import ChTime Collector.

(** *** Debug shell *)

(** A module table: module 0 static on 144.8 MHz, the others dynamic. *)
Definition modules (id : Z) : Shell.module_conf_t :=
  {| Shell.power := 127;
     Shell.frequency :=
       if id =? 0 then {| Shell.type := Shell.FREQ_STATIC; Shell.hz := 144800000 |}
       else {| Shell.type := Shell.FREQ_DYNAMIC; Shell.hz := 0 |};
     Shell.modulation := Config.MOD_AFSK;
     Shell.init_delay := 0;
     Shell.packet_spacing := 0;
     Shell.wdg_timeout := 0;
     Shell.aprs_conf :=
       {| Shell.callsign := "DL7AD"; Shell.ssid := 12; Shell.symbol := 0;
          Shell.path := "WIDE1-1" |} |}.

(** A geofence answer: 144.390 MHz. *)
Definition region_frequency (f : Shell.freq_conf_t) : Z := 144390000.

(** A log of three slots of 128 bytes from 0x080C0000; the second one is
    erased. *)
Definition log_slot (i : Z) : option Z :=
  if (0 <=? i) && (i <? 3) then Some (0x080C0000 + 128 * i) else None.

Definition log_flash (addr : Z) : Shell.trackPoint_t :=
  {| Shell.id := if addr =? 0x080C0080 then 0xFFFFFFFF else (addr - 0x080C0000) / 128 + 1;
     Shell.gps_time := 1500000000;
     Shell.gps_lat := 377749000;
     Shell.gps_lon := -1224194000;
     Shell.gps_alt := 120;
     Shell.gps_sats := 8;
     Shell.gps_ttff := 30;
     Shell.adc_vbat := 4120;
     Shell.adc_vsol := 1850;
     Shell.pac_pbat := -35;
     Shell.sen_i1_press := 1013250;
     Shell.sen_i1_temp := 2150;
     Shell.sen_i1_hum := 45 |}.

(** *** Beacon thread *)

(** A 32-bit tick counter at 10 kHz. *)
Definition ch32 : chconf :=
  {| CH_CFG_ST_RESOLUTION := 32; CH_CFG_ST_FREQUENCY := 10000 |}.

(** A snapshot with the given GPS state, near 37.7749 N, 122.4194 W. *)
Definition snapshot (s : gpsState_t) : dataPoint_t :=
  {| adc_vsol := 1850; adc_vbat := 4120; pac_vsol := 1840; pac_vbat := 4110;
     pac_pbat := -35; pac_psol := 60; light_intensity := 0;
     gps_state := s; gps_sats := 8; gps_ttff := 30; gps_pdop := 40;
     gps_alt := 120; gps_lat := 377749000; gps_lon := -1224194000;
     sen_i1_press := 1013250; sen_e1_press := 0; sen_e2_press := 0;
     sen_i1_temp := 2150; sen_e1_temp := 0; sen_e2_temp := 0;
     sen_i1_hum := 45; sen_e1_hum := 0; sen_e2_hum := 0;
     dummy2 := 0; stm32_temp := 2500; si446x_temp := 2600;
     reset := 1; id := 7; gps_time := 1500000000; sys_time := 120;
     sys_error := 0; gpio := 0 |}.

(** A validity test: the pointer is not [NULL] and the GPS has a lock. *)
Definition position_valid (p : option dataPoint_t) : bool :=
  match p with
  | Some dp => hasGPSacquiredLock dp
  | None => false
  end.

Definition no_base : Beacon.base_conf_t :=
  {| Beacon.enabled := false; Beacon.base_call := ""; Beacon.base_path := "" |}.

Definition a_base : Beacon.base_conf_t :=
  {| Beacon.enabled := true; Beacon.base_call := "DL7AD-7";
     Beacon.base_path := "WIDE2-1" |}.

(** [tel_enc_cycle] of 10800 s, and of zero. *)
Definition sram : Beacon.conf_t :=
  {| Beacon.tel_enc_cycle := TIME_S2I ch32 10800; Beacon.base := no_base |}.

Definition sram_with_base : Beacon.conf_t :=
  {| Beacon.tel_enc_cycle := TIME_S2I ch32 10800; Beacon.base := a_base |}.

Definition sram_zero : Beacon.conf_t :=
  {| Beacon.tel_enc_cycle := 0; Beacon.base := no_base |}.

Definition bcn_conf (once : bool) : Beacon.bcn_app_conf_t :=
  {| Beacon.beacon :=
       {| Beacon.init_delay := 0; Beacon.cycle := TIME_S2I ch32 120 |};
     Beacon.radio_conf :=
       {| Beacon.freq := 144800000; Beacon.pwr := 0x7F;
          Beacon.mod_ := Config.MOD_AFSK; Beacon.cca := 0x4F |};
     Beacon.call := "DL7AD-12";
     Beacon.path := "WIDE1-1";
     Beacon.symbol := 0;
     Beacon.run_once := once |}.

(** The thread starts when the tick counter reads zero. *)
Definition boot : Beacon.boot_in :=
  {| Beacon.now_conf := 0; Beacon.now_time := 0; Beacon.now_delay := 0 |}.

Definition booted : Beacon.bcn_state :=
  {| Beacon.last_conf_transmission := tick_sub ch32 0 (TIME_S2I ch32 10800);
     Beacon.time := 0 |}.

(** A cycle at counter reading [now] with the given GPS state, awake, with
    packets available and the radio succeeding. *)
Definition cycle_at (now : Z) (s : gpsState_t) : Beacon.cycle_in :=
  {| Beacon.in_dataPoint := Some (snapshot s);
     Beacon.in_p_sleep := false;
     Beacon.in_now := now;
     Beacon.in_encode := fun _ => true;
     Beacon.in_radio := fun _ => true;
     Beacon.in_trigger := now |}.

(** The same, but the encoder gets no packet object for telemetry
    configuration. *)
Definition cycle_short_of_packets (now : Z) : Beacon.cycle_in :=
  {| Beacon.in_dataPoint := Some (snapshot GPS_LOCKED1);
     Beacon.in_p_sleep := false;
     Beacon.in_now := now;
     Beacon.in_encode := fun p => negb (Beacon.is_telemetry_configuration p);
     Beacon.in_radio := fun _ => true;
     Beacon.in_trigger := now |}.

(** Two minutes after thread start, and 10800 s short of a full turn of
    the counter. *)
Definition two_minutes : Z := 1200000.
Definition late : Z := 2 ^ 32 - 108000000.

(** A cycle with a GPS lock two minutes after thread start; a boot that
    first waits for a position and then transmits; and a run of three
    cycles of which the first waits for a position. *)
Definition good_cycle : Beacon.cycle_in := cycle_at two_minutes GPS_LOCKED1.

Definition second_cycle : Beacon.cycle_in := cycle_at (2 * two_minutes) GPS_LOCKED1.

Definition third_cycle : Beacon.cycle_in := cycle_at (3 * two_minutes) GPS_LOCKED2.

Definition first_boot : list Beacon.cycle_in :=
  [cycle_at two_minutes GPS_LOSS; second_cycle].

Definition three_cycles : list Beacon.cycle_in :=
  [cycle_at two_minutes GPS_LOSS; second_cycle; third_cycle].

(** *** printPicture and portab.c *)

(** A camera picture of ten sampled bytes: two bytes of garbage, the APP0
    marker at index 2, and six more bytes. *)
Definition picture_bytes : list Z :=
  [0x00; 0xD8; 0xFF; 0xE0; 0x00; 0x10; 0x4A; 0x46; 0xFF; 0xD9].

Definition a_picture : Shell.picture :=
  {| Shell.camera_found := true;
     Shell.size_sampled := 10;
     Shell.ram_buffer := fun i => nth (Z.to_nat i) picture_bytes 0 |}.

(** The same buffer with the marker overwritten. *)
Definition a_blank_picture : Shell.picture :=
  {| Shell.camera_found := true;
     Shell.size_sampled := 10;
     Shell.ram_buffer := fun i => if i =? 2 then 0 else nth (Z.to_nat i) picture_bytes 0 |}.

Definition camera (pic : Shell.picture)
    (r : Config.resolution_t) (quality ram_size : Z) : Shell.picture := pic.

Definition a_band : Portab.radio_band_t :=
  {| Portab.start := 144000000; Portab.end_ := 148000000;
     Portab.step := 12500; Portab.def_aprs := 144800000 |}.

End Samples.

(* ===================================================================== *)
(** * Properties *)
(* ===================================================================== *)

(** ** collector.h: the BME status fields *)

Section StatusBits.
Import Collector.

(** The internal sensor's field sits at bits 8:9 and the first external
    sensor's at bits 10:11, and the two do not overlap. *)
Lemma bme_i1_e1_fields :
  macro_value "BMEI1_STATUS_SHIFT" = Some 8 /\
  macro_value "BMEI1_STATUS_MASK" = Some 0x300 /\
  macro_value "BMEE1_STATUS_SHIFT" = Some 10 /\
  macro_value "BMEE1_STATUS_MASK" = Some 0xC00 /\
  field_bits 8 = [8; 9] /\ field_bits 10 = [10; 11] /\
  Z.land 0x300 0xC00 = 0.
Proof. repeat split; reflexivity. Qed.

(** What line 23 would be worth if the stray [)] were the missing [_]:
    the same shift as BMEe1, so the two fields would coincide. *)
Remark bme_e2_shift_retyped :
  eval_tokens (expand 8 [TId "BMEI1_STATUS_SHIFT"; TPlus; TId "BME_STATUS_BITS"])
    = Some 10.
Proof. reflexivity. Qed.

(** C3 (evaluated on the header as written).  The replacement list of
    [BMEE2_STATUS_SHIFT] is [BMEI1_STATUS_SHIFT + BME_STATUS)BITS]: after
    expansion it is [8 + BME_STATUS ) BITS], which is no expression, so
    neither the shift nor the mask built on it has a value, and in
    particular the shift is not 12. *)
Theorem bme_e2_shift_has_no_value :
  expand 8 [TId "BMEE2_STATUS_SHIFT"]
    = [TNum 8; TPlus; TId "BME_STATUS"; TRParen; TId "BITS"] /\
  macro_value "BMEE2_STATUS_SHIFT" = None /\
  macro_value "BMEE2_STATUS_MASK" = None /\
  macro_value "BMEE2_STATUS_SHIFT" <> Some 12.
Proof. repeat split; try reflexivity. discriminate. Qed.

End StatusBits.

(** ** config.c: the primary position thread *)

Section DefaultConfig.
Import ChTime Config.

(** C8.  In the compiled configuration the primary position thread has
    cycle [TIME_S2I(120)], telemetry-configuration cycle [TIME_S2I(10800)],
    call sign DL7AD-12, path WIDE1-1, AFSK modulation, the dynamic APRS
    frequency and power 0x7F. *)
Theorem pos_pri_matches_scenario_S1 (ch : chconf) (continuously : Z) :
  let p := pos_pri (config ch continuously) in
  cycle (pos_thread_conf p) = TIME_S2I ch 120 /\
  tel_enc_cycle p = TIME_S2I ch 10800 /\
  pos_call p = "DL7AD-12" /\
  pos_path p = "WIDE1-1" /\
  mod_ (pos_radio_conf p) = MOD_AFSK /\
  freq (pos_radio_conf p) = FREQ_APRS_DYNAMIC /\
  pwr (pos_radio_conf p) = 0x7F.
Proof. cbv zeta. repeat split. Qed.

(** With a tick rate under which 10800 s fit the tick type, the two
    intervals are 120 and 10800 seconds' worth of ticks. *)
Lemma pos_pri_intervals_in_ticks (ch : chconf) (continuously : Z) :
  0 < CH_CFG_ST_FREQUENCY ch ->
  10800 * CH_CFG_ST_FREQUENCY ch < 2 ^ CH_CFG_ST_RESOLUTION ch ->
  let p := pos_pri (config ch continuously) in
  cycle (pos_thread_conf p) = 120 * CH_CFG_ST_FREQUENCY ch /\
  tel_enc_cycle p = 10800 * CH_CFG_ST_FREQUENCY ch.
Proof.
  intros Hf Hfit p. subst p.
  unfold config; cbn [pos_pri pos_thread_conf cycle tel_enc_cycle].
  unfold TIME_S2I, wrap.
  split; apply Z.mod_small; lia.
Qed.

End DefaultConfig.

(** ** The debug shell *)

Section ShellCommands.
Import Config Shell.

Lemma chprintf_console f a st :
  console (chprintf f a st) = console st ++ [ {| fmt := f; args := a |} ].
Proof. reflexivity. Qed.

(** C10.  With no argument [debugOnUSB] only writes its two usage lines,
    and with fewer than two arguments [send_aprs_message] only writes its
    three: [debug_on_usb] keeps its value and neither the encoder nor the
    radio is called. *)
Theorem missing_arguments_only_print_usage
    (config : Z -> module_conf_t) (argc1 argc2 : Z) (argv : list string)
    (st : shell_state) :
  argc1 < 1 ->
  argc2 < 2 ->
  (let st' := debugOnUSB argc1 argv st in
   debug_on_usb st' = debug_on_usb st /\
   radio st' = radio st /\
   lookups st' = lookups st /\
   console st' = console st ++
     [ {| fmt := line "Argument missing!"; args := [] |};
       {| fmt := line "Argument 1: 1 for switch on, 0 for switch off"; args := [] |} ])
  /\
  (let st' := send_aprs_message config argc2 argv st in
   debug_on_usb st' = debug_on_usb st /\
   radio st' = radio st /\
   lookups st' = lookups st /\
   console st' = console st ++
     [ {| fmt := line "Argument missing!"; args := [] |};
       {| fmt := line "Argument 1: Destination"; args := [] |};
       {| fmt := line "Argument 2: Message"; args := [] |} ]).
Proof.
  intros H1 H2.
  apply Z.ltb_lt in H1, H2.
  unfold debugOnUSB, send_aprs_message. rewrite H1, H2. cbv zeta.
  repeat split; cbn [debug_on_usb radio lookups console chprintf];
    rewrite <- ?app_assoc; reflexivity.
Qed.

Lemma missing_arguments_only_print_usage_witness :
  debug_on_usb (debugOnUSB 0 [] boot_state) = true /\
  radio (send_aprs_message Samples.modules 1 ["DL7AD-14"] boot_state) = [].
Proof.
  split.
  - apply (missing_arguments_only_print_usage Samples.modules
             0 1 [] boot_state); lia.
  - apply (missing_arguments_only_print_usage Samples.modules
             0 1 ["DL7AD-14"] boot_state); lia.
Defined.

(** [printConfig] on a module whose frequency is static: the frequency shown
    is the stored [hz] and [getFrequency] is not called. *)
Lemma printConfig_static
    (config : Z -> module_conf_t) (getFrequency : freq_conf_t -> Z)
    (argc : Z) (argv : list string) (st : shell_state) :
  1 <= argc ->
  let id := atoi (argv_at argv 0) mod 256 in
  let h := hz (frequency (config id)) in
  type (frequency (config id)) = FREQ_STATIC ->
  let st' := printConfig config getFrequency argc argv st in
  lookups st' = lookups st /\
  console st' = console st ++ printConfig_head id (config id) ++
    [ {| fmt := line "Frequency: %d.%03d MHz";
         args := [AInt (h / 1000000);
                  AInt (if (h / 1000) * 1000 =? h
                        then (h mod 1000000) / 1000 else h mod 1000000)] |} ]
    ++ printConfig_tail (config id).
Proof.
  intros Hargc id h Hstatic.
  assert (Hlt : (argc <? 1) = false) by (apply Z.ltb_ge; lia).
  unfold printConfig. rewrite Hlt. fold id. rewrite Hstatic. fold h.
  destruct ((h / 1000) * 1000 =? h);
    cbn [lookups console chprintf note_lookup printConfig_head printConfig_tail];
    split; try reflexivity;
    repeat rewrite <- app_assoc; reflexivity.
Qed.

(** [printConfig] on a module whose frequency is dynamic: [getFrequency] is
    called once, on that module's descriptor, and its result is shown. *)
Lemma printConfig_dynamic
    (config : Z -> module_conf_t) (getFrequency : freq_conf_t -> Z)
    (argc : Z) (argv : list string) (st : shell_state) :
  1 <= argc ->
  let id := atoi (argv_at argv 0) mod 256 in
  let f := getFrequency (frequency (config id)) in
  type (frequency (config id)) = FREQ_DYNAMIC ->
  let st' := printConfig config getFrequency argc argv st in
  lookups st' = lookups st ++ [frequency (config id)] /\
  console st' = console st ++ printConfig_head id (config id) ++
    [ {| fmt := line "Frequency: APRS region dependent (currently %d.%03d MHz)";
         args := [AInt (f / 1000000); AInt ((f mod 1000000) / 1000)] |} ]
    ++ printConfig_tail (config id).
Proof.
  intros Hargc id f Hdyn.
  assert (Hlt : (argc <? 1) = false) by (apply Z.ltb_ge; lia).
  unfold printConfig. rewrite Hlt. fold id. rewrite Hdyn. fold f.
  cbn [lookups console chprintf note_lookup printConfig_head printConfig_tail].
  split; try reflexivity.
  repeat rewrite <- app_assoc; reflexivity.
Qed.

(** C6.  Resolving the frequency of a module in [printConfig]: a static
    descriptor yields its stored [hz] without any call of [getFrequency];
    a dynamic descriptor is the only case in which [getFrequency] is
    called (once, on that descriptor). *)
Theorem static_frequency_needs_no_lookup
    (config : Z -> module_conf_t) (getFrequency : freq_conf_t -> Z)
    (argc : Z) (argv : list string) (st : shell_state) :
  1 <= argc ->
  let id := atoi (argv_at argv 0) mod 256 in
  let d := frequency (config id) in
  let st' := printConfig config getFrequency argc argv st in
  match type d with
  | FREQ_STATIC =>
      lookups st' = lookups st /\
      In {| fmt := line "Frequency: %d.%03d MHz";
            args := [AInt (hz d / 1000000);
                     AInt (if (hz d / 1000) * 1000 =? hz d
                           then (hz d mod 1000000) / 1000
                           else hz d mod 1000000)] |}
         (console st')
  | FREQ_DYNAMIC =>
      lookups st' = lookups st ++ [d] /\
      In {| fmt := line "Frequency: APRS region dependent (currently %d.%03d MHz)";
            args := [AInt (getFrequency d / 1000000);
                     AInt ((getFrequency d mod 1000000) / 1000)] |}
         (console st')
  end.
Proof.
  intros Hargc id d st'.
  destruct (type d) eqn:Hty.
  - destruct (printConfig_static config getFrequency argc argv st Hargc Hty)
      as [Hl Hc].
    split; [exact Hl|]. subst st'. rewrite Hc.
    apply in_or_app; right. apply in_or_app; right.
    apply in_or_app; left. left. reflexivity.
  - destruct (printConfig_dynamic config getFrequency argc argv st Hargc Hty)
      as [Hl Hc].
    split; [exact Hl|]. subst st'. rewrite Hc.
    apply in_or_app; right. apply in_or_app; right.
    apply in_or_app; left. left. reflexivity.
Qed.

Lemma static_frequency_needs_no_lookup_witness :
  lookups (printConfig Samples.modules Samples.region_frequency 1 ["0"] boot_state) = [] /\
  lookups (printConfig Samples.modules Samples.region_frequency 1 ["1"] boot_state)
    = [ {| type := FREQ_DYNAMIC; hz := 0 |} ].
Proof.
  split.
  - apply (static_frequency_needs_no_lookup Samples.modules Samples.region_frequency
             1 ["0"] boot_state). lia.
  - apply (static_frequency_needs_no_lookup Samples.modules Samples.region_frequency
             1 ["1"] boot_state). lia.
Defined.

(** ** readLog *)

Section ReadLog.
Variable getLogBuffer : Z -> option Z.
Variable flash : Z -> trackPoint_t.

Local Abbreviation slot_lines := (Shell.slot_lines getLogBuffer flash).

Lemma slot_lines_length k n :
  List.length (slot_lines k n)
  = List.length (filter
              (fun j =>
                 match getLogBuffer (Z.of_nat j) with
                 | Some a => negb (id (flash a) =? 0xFFFFFFFF)
                 | None => false
                 end)
              (seq k n)).
Proof.
  unfold slot_lines. revert k.
  induction n as [|n IH]; intro k; [reflexivity|].
  cbn [seq flat_map filter]. rewrite List.length_app, IH.
  destruct (getLogBuffer (Z.of_nat k)) as [a|]; [|reflexivity].
  destruct (id (flash a) =? 0xFFFFFFFF); reflexivity.
Qed.

Variable n : nat.
Hypothesis n_is_uint16 : Z.of_nat n < 65536.
Hypothesis end_of_log : getLogBuffer (Z.of_nat n) = None.
Hypothesis slots_before :
  forall j, (j < n)%nat -> getLogBuffer (Z.of_nat j) <> None.

(** The loop started at slot [k] with [m] slots to go. *)
Lemma readLog_loop_from (m : nat) :
  forall (k fuel : nat) (st : shell_state),
    (k + m = n)%nat ->
    (m < fuel)%nat ->
    exists st',
      readLog_loop getLogBuffer flash fuel (Z.of_nat k) st = Some st' /\
      console st' = console st ++ slot_lines k m /\
      debug_on_usb st' = debug_on_usb st /\
      radio st' = radio st /\
      lookups st' = lookups st.
Proof.
  induction m as [|m IH]; intros k fuel st Hk Hfuel.
  - destruct fuel as [|fuel]; [lia|].
    replace k with n by lia.
    cbn [readLog_loop]. rewrite end_of_log.
    exists st. unfold slot_lines. cbn [seq flat_map].
    rewrite app_nil_r. repeat split; reflexivity.
  - destruct fuel as [|fuel]; [lia|].
    cbn [readLog_loop].
    destruct (getLogBuffer (Z.of_nat k)) as [a|] eqn:Hslot;
      [|exfalso; apply (slots_before k); [lia|exact Hslot]].
    replace ((Z.of_nat k + 1) mod 65536) with (Z.of_nat (S k))
      by (rewrite Z.mod_small; lia).
    unfold slot_lines. cbn [seq flat_map]. rewrite Hslot.
    fold (slot_lines (S k) m).
    destruct (id (flash a) =? 0xFFFFFFFF).
    + destruct (IH (S k) fuel st) as (st' & Hrun & Hc & Hd & Hr & Hl);
        [lia|lia|].
      exists st'. repeat split; assumption.
    + destruct (IH (S k) fuel
                  (chprintf readLog_format (readLog_args a (flash a)) st))
        as (st' & Hrun & Hc & Hd & Hr & Hl); [lia|lia|].
      exists st'. split; [exact Hrun|].
      rewrite Hc, chprintf_console, <- app_assoc.
      repeat split; assumption.
Qed.
End ReadLog.

(** C5.  When [getLogBuffer] first returns [NULL] at slot [n], [readLog]
    returns after visiting the slots 0, ..., n-1 in order (any fuel above
    [n] is enough), and what it has written is the header line followed by
    one record line for each of those slots whose [id] is not 0xFFFFFFFF,
    in slot order; erased slots leave no line.  Nothing else changes. *)
Theorem readLog_prints_used_slots
    (getLogBuffer : Z -> option Z) (flash : Z -> trackPoint_t)
    (n fuel : nat) (argc : Z) (argv : list string) (st : shell_state) :
  Z.of_nat n < 65536 ->
  getLogBuffer (Z.of_nat n) = None ->
  (forall j, (j < n)%nat -> getLogBuffer (Z.of_nat j) <> None) ->
  (n < fuel)%nat ->
  exists st',
    readLog getLogBuffer flash fuel argc argv st = Some st' /\
    console st' = console st
                  ++ {| fmt := readLog_header; args := [] |}
                  :: slot_lines getLogBuffer flash 0 n /\
    List.length (slot_lines getLogBuffer flash 0 n)
      = List.length (used_slots getLogBuffer flash n) /\
    debug_on_usb st' = debug_on_usb st /\
    radio st' = radio st /\
    lookups st' = lookups st.
Proof.
  intros Hn Hend Hbefore Hfuel.
  destruct (readLog_loop_from getLogBuffer flash n Hn Hend Hbefore n 0 fuel
              (chprintf readLog_header [] st))
    as (st' & Hrun & Hc & Hd & Hr & Hl); [lia|exact Hfuel|].
  exists st'. split; [exact Hrun|].
  rewrite Hc, chprintf_console, <- app_assoc.
  split; [reflexivity|].
  split; [apply slot_lines_length|].
  repeat split; assumption.
Qed.

(** ** readLog: the 16-bit slot counter and the coordinate fields *)

Lemma readLog_loop_never_ends
    (getLogBuffer : Z -> option Z) (flash : Z -> trackPoint_t) :
  (forall i, 0 <= i < 65536 -> getLogBuffer i <> None) ->
  forall (fuel : nat) (i : Z) (st : shell_state),
    0 <= i < 65536 ->
    readLog_loop getLogBuffer flash fuel i st = None.
Proof.
  intros Hfull. induction fuel as [|fuel IH]; intros i st Hi; [reflexivity|].
  cbn [readLog_loop].
  destruct (getLogBuffer i) as [tp|] eqn:Hslot;
    [|exfalso; exact (Hfull i Hi Hslot)].
  apply IH. apply Z.mod_pos_bound. lia.
Qed.

(** X1.  When [getLogBuffer] has a slot for every index a [uint16_t] can hold,
    the loop counter wraps from 65535 to 0 and [readLog] does not return,
    however many iterations it is given. *)
Theorem readLog_never_returns_without_null
    (getLogBuffer : Z -> option Z) (flash : Z -> trackPoint_t)
    (fuel : nat) (argc : Z) (argv : list string) (st : shell_state) :
  (forall i, 0 <= i < 65536 -> getLogBuffer i <> None) ->
  readLog getLogBuffer flash fuel argc argv st = None.
Proof.
  intros Hfull. unfold readLog.
  apply readLog_loop_never_ends; [exact Hfull | lia].
Qed.

Lemma readLog_never_returns_without_null_witness :
  readLog (fun i => Some (0x080C0000 + 128 * i)) Samples.log_flash 1000 0 []
    boot_state = None.
Proof.
  apply (readLog_never_returns_without_null
           (fun i => Some (0x080C0000 + 128 * i)) Samples.log_flash
           1000 0 [] boot_state).
  intros i Hi. discriminate.
Defined.

(** The two numbers [readLog] prints for a coordinate [x] in 1e-7 degrees:
    the degrees [x / 10000000] and the fraction
    [(x > 0 ? 1 : -1) * (x / 100) % 100000]. *)
Lemma coordinate_fields (x : Z) :
  let deg := Z.quot x 10000000 in
  let frac := Z.rem (sign x * Z.quot x 100) 100000 in
  0 <= frac < 100000 /\
  Z.abs x / 100 = Z.abs deg * 100000 + frac.
Proof.
  intros deg frac. subst deg frac.
  assert (Hfrac : sign x * Z.quot x 100 = Z.abs x / 100).
  { unfold sign. destruct (0 <? x) eqn:Hx.
    - apply Z.ltb_lt in Hx. rewrite Z.abs_eq by lia.
      rewrite Z.quot_div_nonneg by lia. lia.
    - apply Z.ltb_ge in Hx. rewrite Z.abs_neq by lia.
      replace x with (- (- x)) at 1 by lia.
      rewrite Z.quot_opp_l by lia.
      rewrite Z.quot_div_nonneg by lia. lia. }
  assert (Hdeg : Z.abs (Z.quot x 10000000) = Z.abs x / 10000000).
  { destruct (Z.le_gt_cases 0 x) as [Hx|Hx].
    - rewrite (Z.abs_eq x) by lia.
      rewrite Z.quot_div_nonneg by lia.
      apply Z.abs_eq. apply Z.div_pos; lia.
    - rewrite (Z.abs_neq x) by lia.
      replace x with (- (- x)) at 1 by lia.
      rewrite Z.quot_opp_l by lia.
      rewrite Z.quot_div_nonneg by lia.
      rewrite Z.abs_opp. apply Z.abs_eq. apply Z.div_pos; lia. }
  rewrite Hfrac, Hdeg.
  assert (Hnn : 0 <= Z.abs x / 100) by (apply Z.div_pos; lia).
  rewrite Z.rem_mod_nonneg by lia.
  split; [apply Z.mod_pos_bound; lia|].
  replace 10000000 with (100 * 100000) by reflexivity.
  rewrite <- Z.div_div by lia.
  pose proof (Z.div_mod (Z.abs x / 100) 100000) as Hdm. lia.
Qed.

(** X2.  The latitude and longitude columns of a record line recompose the
    magnitude of the coordinate to 1e-5 degrees: the fraction is between 0
    and 99999, and |x| / 100 = |degrees| * 100000 + fraction. *)
Theorem readLog_coordinates_recompose (addr : Z) (tp : trackPoint_t) :
  exists lat_deg lat_frac lon_deg lon_frac,
    firstn 4 (skipn 3 (readLog_args addr tp))
      = [AInt lat_deg; AInt lat_frac; AInt lon_deg; AInt lon_frac] /\
    0 <= lat_frac < 100000 /\
    Z.abs (gps_lat tp) / 100 = Z.abs lat_deg * 100000 + lat_frac /\
    0 <= lon_frac < 100000 /\
    Z.abs (gps_lon tp) / 100 = Z.abs lon_deg * 100000 + lon_frac.
Proof.
  do 4 eexists. split; [reflexivity|].
  destruct (coordinate_fields (gps_lat tp)) as [H1 H2].
  destruct (coordinate_fields (gps_lon tp)) as [H3 H4].
  repeat split; assumption || apply H1 || apply H3.
Qed.

(** X3.  Between -1 and 0 degrees the sign is lost: the degrees print as 0 and
    the fraction is made positive, so a record line is the same for a
    latitude and for its negative. *)
Theorem readLog_drops_sign_below_one_degree
    (addr : Z) (tp : trackPoint_t) (lat : Z) :
  0 < lat < 10000000 ->
  readLog_args addr (with_gps_lat tp (- lat))
  = readLog_args addr (with_gps_lat tp lat).
Proof.
  intros Hlat. unfold readLog_args, with_gps_lat.
  cbn [id gps_time gps_lat gps_lon gps_alt gps_sats gps_ttff adc_vbat adc_vsol
       pac_pbat sen_i1_press sen_i1_temp sen_i1_hum].
  assert (Hs1 : sign (- lat) = -1)
    by (unfold sign; destruct (0 <? - lat) eqn:E; [apply Z.ltb_lt in E; lia | reflexivity]).
  assert (Hs2 : sign lat = 1)
    by (unfold sign; destruct (0 <? lat) eqn:E; [reflexivity | apply Z.ltb_ge in E; lia]).
  rewrite Hs1, Hs2.
  rewrite !Z.quot_opp_l by lia.
  rewrite (Z.quot_small lat 10000000) by lia.
  replace (-1 * - Z.quot lat 100) with (1 * Z.quot lat 100) by lia.
  reflexivity.
Qed.

Lemma readLog_drops_sign_below_one_degree_witness :
  readLog_args 0x080C0000 (with_gps_lat (Samples.log_flash 0x080C0000) (- 5000000))
  = readLog_args 0x080C0000 (with_gps_lat (Samples.log_flash 0x080C0000) 5000000).
Proof.
  apply (readLog_drops_sign_below_one_degree 0x080C0000
           (Samples.log_flash 0x080C0000) 5000000).
  lia.
Defined.

(** ** printConfig: the module index and the frequency line *)

(** X6.  The module index is a [uint8_t]: two arguments whose values agree
    modulo 256 (256 and 0, -1 and 255) show the same module. *)
Theorem printConfig_index_wraps
    (config : Z -> module_conf_t) (getFrequency : freq_conf_t -> Z)
    (argc1 argc2 : Z) (argv1 argv2 : list string) (st : shell_state) :
  1 <= argc1 ->
  1 <= argc2 ->
  atoi (argv_at argv1 0) mod 256 = atoi (argv_at argv2 0) mod 256 ->
  printConfig config getFrequency argc1 argv1 st
  = printConfig config getFrequency argc2 argv2 st.
Proof.
  intros H1 H2 Hid.
  assert (Hlt1 : (argc1 <? 1) = false) by (apply Z.ltb_ge; lia).
  assert (Hlt2 : (argc2 <? 1) = false) by (apply Z.ltb_ge; lia).
  unfold printConfig. rewrite Hlt1, Hlt2, Hid. reflexivity.
Qed.

Lemma printConfig_index_wraps_witness :
  printConfig Samples.modules Samples.region_frequency 1 ["256"] boot_state
  = printConfig Samples.modules Samples.region_frequency 1 ["0"] boot_state.
Proof.
  apply (printConfig_index_wraps Samples.modules Samples.region_frequency
           1 1 ["256"] ["0"] boot_state); [lia | lia | reflexivity].
Defined.

(** X7.  A static frequency that is not a whole number of kHz is shown with its
    Hz remainder in the place of the kHz: [a] MHz plus [b] Hz, with
    0 < b < 1000, prints exactly like [a] MHz plus [b] kHz. *)
Theorem printConfig_frequency_line_collides
    (config1 config2 : Z -> module_conf_t) (getFrequency : freq_conf_t -> Z)
    (argc : Z) (argv : list string) (st : shell_state)
    (c : module_conf_t) (a b : Z) :
  1 <= argc ->
  0 <= a ->
  0 < b < 1000 ->
  config1 (atoi (argv_at argv 0) mod 256) = with_static_hz c (a * 1000000 + b) ->
  config2 (atoi (argv_at argv 0) mod 256) = with_static_hz c (a * 1000000 + b * 1000) ->
  printConfig config1 getFrequency argc argv st
  = printConfig config2 getFrequency argc argv st.
Proof.
  intros Hargc Ha Hb Hc1 Hc2.
  assert (Hlt : (argc <? 1) = false) by (apply Z.ltb_ge; lia).
  unfold printConfig. rewrite Hlt, Hc1, Hc2.
  cbn [with_static_hz frequency type hz power modulation init_delay
       packet_spacing wdg_timeout].
  assert (H1 : ((a * 1000000 + b) / 1000 * 1000 =? a * 1000000 + b) = false).
  { apply Z.eqb_neq. intros Heq.
    assert (Hq : (a * 1000000 + b) / 1000 = a * 1000)
      by (symmetry; apply (Z.div_unique _ _ _ b); lia).
    lia. }
  assert (H2 : ((a * 1000000 + b * 1000) / 1000 * 1000 =? a * 1000000 + b * 1000)
               = true).
  { apply Z.eqb_eq.
    assert (Hq : (a * 1000000 + b * 1000) / 1000 = a * 1000 + b)
      by (symmetry; apply (Z.div_unique _ _ _ 0); lia).
    lia. }
  rewrite H1, H2.
  assert (E1 : (a * 1000000 + b) / 1000000 = a)
    by (symmetry; apply (Z.div_unique _ _ _ b); lia).
  assert (E2 : (a * 1000000 + b) mod 1000000 = b)
    by (symmetry; apply (Z.mod_unique _ _ a); [left; lia | lia]).
  assert (E3 : (a * 1000000 + b * 1000) / 1000000 = a)
    by (symmetry; apply (Z.div_unique _ _ _ (b * 1000)); lia).
  assert (E4 : (a * 1000000 + b * 1000) mod 1000000 = b * 1000)
    by (symmetry; apply (Z.mod_unique _ _ a); [left; lia | lia]).
  rewrite E1, E2, E3, E4, Z.div_mul by lia.
  reflexivity.
Qed.

Lemma printConfig_frequency_line_collides_witness :
  printConfig (fun _ => with_static_hz (Samples.modules 0) (144 * 1000000 + 500))
    Samples.region_frequency 1 ["0"] boot_state
  = printConfig (fun _ => with_static_hz (Samples.modules 0) (144 * 1000000 + 500 * 1000))
      Samples.region_frequency 1 ["0"] boot_state.
Proof.
  apply (printConfig_frequency_line_collides
           (fun _ => with_static_hz (Samples.modules 0) (144 * 1000000 + 500))
           (fun _ => with_static_hz (Samples.modules 0) (144 * 1000000 + 500 * 1000))
           Samples.region_frequency 1 ["0"] boot_state (Samples.modules 0) 144 500);
    try lia; reflexivity.
Defined.

(** ** printPicture *)

Section PrintPicture.
Variable pic : picture.

Lemma buffer_bytes_cons (i : Z) (n : nat) :
  buffer_bytes pic i (S n) = ram_buffer pic i :: buffer_bytes pic (i + 1) n.
Proof.
  unfold buffer_bytes. cbn [seq map]. rewrite Z.add_0_r. f_equal.
  rewrite <- seq_shift, map_map.
  apply map_ext. intros k. f_equal. lia.
Qed.

Lemma buffer_bytes_length (i : Z) (n : nat) :
  List.length (buffer_bytes pic i n) = n.
Proof. unfold buffer_bytes. rewrite length_map, length_seq. reflexivity. Qed.

Lemma stream_bytes_app out1 out2 :
  stream_bytes (out1 ++ out2) = stream_bytes out1 ++ stream_bytes out2.
Proof.
  induction out1 as [|o out1 IH]; [reflexivity|].
  destruct o; cbn [app stream_bytes]; rewrite IH; reflexivity.
Qed.

Lemma stream_bytes_puts (bs : list Z) : stream_bytes (map StreamPut bs) = bs.
Proof. induction bs as [|b bs IH]; [reflexivity|]. cbn. rewrite IH. reflexivity. Qed.

(** Once the marker has been seen, every further byte is copied. *)
Lemma printPicture_loop_copying (n : nat) :
  forall (i : Z) (out : list usb_out),
    printPicture_loop pic n i true out
    = (true, out ++ map StreamPut (buffer_bytes pic i n)).
Proof.
  induction n as [|n IH]; intros i out.
  - cbn. rewrite app_nil_r. reflexivity.
  - cbn [printPicture_loop negb andb orb]. rewrite IH, buffer_bytes_cons.
    cbn [map]. rewrite <- app_assoc. reflexivity.
Qed.

(** Before the marker, nothing is written. *)
Lemma printPicture_loop_searching (n : nat) :
  forall (i : Z) (out : list usb_out),
    (forall k, (k < n)%nat -> app0_at pic (i + Z.of_nat k) = false) ->
    printPicture_loop pic n i false out = (false, out).
Proof.
  induction n as [|n IH]; intros i out Hnone; [reflexivity|].
  cbn [printPicture_loop negb andb orb].
  pose proof (Hnone 0%nat ltac:(lia)) as H0.
  rewrite Z.add_0_r in H0. unfold app0_at in H0. rewrite H0.
  apply IH. intros k Hk.
  replace (i + 1 + Z.of_nat k) with (i + Z.of_nat (S k)) by lia.
  apply Hnone. lia.
Qed.

Lemma printPicture_loop_split (a b : nat) :
  forall (i : Z) (sd : bool) (out : list usb_out),
    printPicture_loop pic (a + b) i sd out
    = printPicture_loop pic b (i + Z.of_nat a)
        (fst (printPicture_loop pic a i sd out))
        (snd (printPicture_loop pic a i sd out)).
Proof.
  induction a as [|a IH]; intros i sd out.
  - cbn. rewrite Z.add_0_r. reflexivity.
  - cbn [Nat.add printPicture_loop]. rewrite IH.
    replace (i + 1 + Z.of_nat a) with (i + Z.of_nat (S a)) by lia.
    reflexivity.
Qed.

(** The loop over a buffer whose first APP0 marker is at index [k]. *)
Lemma printPicture_loop_from_marker (k m : nat) :
  (forall j, (j < k)%nat -> app0_at pic (Z.of_nat j) = false) ->
  app0_at pic (Z.of_nat k) = true ->
  printPicture_loop pic (k + S m) 0 false []
  = (true,
     TraceUsb "DATA > image/jpeg,%d"
       [AInt ((size_sampled pic - Z.of_nat k + 2) mod 2 ^ 32)]
     :: StreamPut 0xFF :: StreamPut 0xD8
     :: map StreamPut (buffer_bytes pic (Z.of_nat k) (S m))).
Proof.
  intros Hbefore Hat.
  rewrite printPicture_loop_split.
  rewrite printPicture_loop_searching by (intros j Hj; apply Hbefore; exact Hj).
  cbn [fst snd]. rewrite Z.add_0_l.
  cbn [printPicture_loop negb andb orb].
  unfold app0_at in Hat. rewrite Hat.
  rewrite printPicture_loop_copying, buffer_bytes_cons.
  reflexivity.
Qed.
End PrintPicture.

(** X4.  When the camera delivers a picture whose first APP0 marker (FF E0) is
    at index [k] of the sampled bytes, [printPicture] announces the length
    and then puts on the stream the SOI marker FF D8 followed by the
    sampled bytes from index [k] to the end, nothing before them; the
    length announced, [size_sampled - k + 2], is the number of bytes put
    on the stream. *)
Theorem printPicture_sends_jpeg_from_first_app0
    (takePicture : resolution_t -> Z -> Z -> picture)
    (argc : Z) (argv : list string) (k : nat) :
  let pic := takePicture RES_QVGA 4 (16 * 1024) in
  camera_found pic = true ->
  Z.of_nat k < size_sampled pic ->
  size_sampled pic + 2 < 2 ^ 32 ->
  (forall j, (j < k)%nat -> app0_at pic (Z.of_nat j) = false) ->
  app0_at pic (Z.of_nat k) = true ->
  printPicture takePicture argc argv
  = TraceUsb "DATA > image/jpeg,%d" [AInt (size_sampled pic - Z.of_nat k + 2)]
    :: StreamPut 0xFF :: StreamPut 0xD8
    :: map StreamPut
         (buffer_bytes pic (Z.of_nat k) (Z.to_nat (size_sampled pic) - k)) /\
  Z.of_nat (List.length (stream_bytes (printPicture takePicture argc argv)))
  = size_sampled pic - Z.of_nat k + 2.
Proof.
  intros pic Hcam Hk Hsize Hbefore Hat.
  assert (Hrun : printPicture takePicture argc argv
                 = TraceUsb "DATA > image/jpeg,%d"
                     [AInt (size_sampled pic - Z.of_nat k + 2)]
                   :: StreamPut 0xFF :: StreamPut 0xD8
                   :: map StreamPut
                        (buffer_bytes pic (Z.of_nat k)
                           (Z.to_nat (size_sampled pic) - k))).
  { unfold printPicture. fold pic. rewrite Hcam.
    remember (Z.to_nat (size_sampled pic) - k - 1)%nat as m eqn:Hm.
    replace (Z.to_nat (size_sampled pic)) with (k + S m)%nat by lia.
    rewrite (printPicture_loop_from_marker pic k m Hbefore Hat).
    rewrite Z.mod_small by lia.
    replace (k + S m - k)%nat with (S m) by lia.
    reflexivity. }
  split; [exact Hrun|].
  rewrite Hrun. cbn [stream_bytes List.length].
  rewrite stream_bytes_puts, buffer_bytes_length. lia.
Qed.

Lemma printPicture_sends_jpeg_from_first_app0_witness :
  printPicture (Samples.camera Samples.a_picture) 0 []
  = TraceUsb "DATA > image/jpeg,%d" [AInt (10 - 2 + 2)]
    :: StreamPut 0xFF :: StreamPut 0xD8
    :: map StreamPut (buffer_bytes Samples.a_picture 2 (Z.to_nat 10 - 2)) /\
  Z.of_nat (List.length (stream_bytes
                           (printPicture (Samples.camera Samples.a_picture) 0 [])))
  = 10 - 2 + 2.
Proof.
  apply (printPicture_sends_jpeg_from_first_app0
           (Samples.camera Samples.a_picture) 0 [] 2).
  - reflexivity.
  - reflexivity.
  - reflexivity.
  - intros j Hj. destruct j as [|[|j]]; [reflexivity | reflexivity | lia].
  - reflexivity.
Defined.

(** X5.  Without a camera, or when no APP0 marker is found among the sampled
    bytes, [printPicture] puts no byte on the stream and writes its two
    trace lines only. *)
Theorem printPicture_without_marker_sends_nothing
    (takePicture : resolution_t -> Z -> Z -> picture)
    (argc : Z) (argv : list string) :
  let pic := takePicture RES_QVGA 4 (16 * 1024) in
  (camera_found pic = true ->
   forall j, (j < Z.to_nat (size_sampled pic))%nat ->
             app0_at pic (Z.of_nat j) = false) ->
  stream_bytes (printPicture takePicture argc argv) = [] /\
  printPicture takePicture argc argv
  = if camera_found pic
    then [ TraceUsb "DATA > image/jpeg,0" [];
           TraceUsb "DATA > text/trace,no SOI flag found" [] ]
    else [ TraceUsb "DATA > image,jpeg,0" [];
           TraceUsb "DATA > error,no camera found" [] ].
Proof.
  intros pic Hnone.
  unfold printPicture. fold pic.
  destruct (camera_found pic) eqn:Hcam; [|split; reflexivity].
  rewrite printPicture_loop_searching
    by (intros j Hj; rewrite Z.add_0_l; apply Hnone; [reflexivity | exact Hj]).
  split; reflexivity.
Qed.

Lemma printPicture_without_marker_sends_nothing_witness :
  stream_bytes (printPicture (Samples.camera Samples.a_blank_picture) 0 []) = [] /\
  printPicture (Samples.camera Samples.a_blank_picture) 0 []
  = [ TraceUsb "DATA > image/jpeg,0" [];
      TraceUsb "DATA > text/trace,no SOI flag found" [] ].
Proof.
  apply (printPicture_without_marker_sends_nothing
           (Samples.camera Samples.a_blank_picture) 0 []).
  intros _ j Hj.
  do 10 (destruct j as [|j]; [reflexivity|]).
  cbn in Hj. lia.
Defined.

(** ** debugOnUSB: what counts as "on" *)

Lemma atoi_of_text (c : ascii) (rest : string) :
  isspace c = false ->
  digit_of c = None ->
  c <> "-"%char ->
  c <> "+"%char ->
  atoi (String c rest) = 0.
Proof.
  intros Hsp Hdig Hminus Hplus.
  unfold atoi. cbn [skip_space]. rewrite Hsp.
  destruct c as [[] [] [] [] [] [] [] []];
    try (exfalso; apply Hminus; reflexivity);
    try (exfalso; apply Hplus; reflexivity);
    cbn [digits]; rewrite Hdig; reflexivity.
Qed.

(** X8.  The flag is set from [atoi(argv[0])]: an argument that does not begin
    with a number (after white space and sign), such as the word "on",
    switches the debug output off; nothing is printed and nothing else
    changes. *)
Theorem debugOnUSB_text_switches_off
    (argc : Z) (c : ascii) (rest : string) (argv : list string)
    (st : shell_state) :
  1 <= argc ->
  isspace c = false ->
  digit_of c = None ->
  c <> "-"%char ->
  c <> "+"%char ->
  debugOnUSB argc (String c rest :: argv) st = set_debug_on_usb false st.
Proof.
  intros Hargc Hsp Hdig Hminus Hplus.
  assert (Hlt : (argc <? 1) = false) by (apply Z.ltb_ge; lia).
  unfold debugOnUSB. rewrite Hlt.
  unfold argv_at. cbn [nth].
  rewrite (atoi_of_text c rest Hsp Hdig Hminus Hplus). reflexivity.
Qed.

Lemma debugOnUSB_text_switches_off_witness :
  debugOnUSB 1 ["on"] boot_state = set_debug_on_usb false boot_state.
Proof.
  apply (debugOnUSB_text_switches_off 1 "o"%char "n" [] boot_state);
    [lia | reflexivity | reflexivity | discriminate | discriminate].
Defined.

End ShellCommands.

(** ** The beacon thread *)

Section BeaconThread.
Import ChTime Collector Beacon.

Variable ch : chconf.
Variable isPositionValid : option dataPoint_t -> bool.
Variable conf_sram : conf_t.
Variable conf : bcn_app_conf_t.

Local Abbreviation bcn_cycle := (Beacon.bcn_cycle ch isPositionValid conf_sram conf).
Local Abbreviation bcn_loop := (Beacon.bcn_loop ch isPositionValid conf_sram conf).
Local Abbreviation bcnThread := (Beacon.bcnThread ch isPositionValid conf_sram conf).
Local Abbreviation telemetry_step := (Beacon.telemetry_step ch conf).
Local Abbreviation telemetry_group := (Beacon.telemetry_group ch conf).
Local Abbreviation telemetry_due := (Beacon.telemetry_due ch conf_sram).
Local Abbreviation position_step := (Beacon.position_step ch conf).
Local Abbreviation aprsd_step := (Beacon.aprsd_step ch conf_sram conf).
Local Abbreviation next_trigger := (Beacon.next_trigger conf).
Local Abbreviation transmitting := (Beacon.transmitting isPositionValid).
Local Abbreviation after_telemetry := (Beacon.after_telemetry ch conf_sram).
Local Abbreviation position_pdu := (Beacon.position_pdu conf).
Local Abbreviation aprsd_pdu := (Beacon.aprsd_pdu conf_sram conf).
Local Abbreviation telemetry_pdu := (Beacon.telemetry_pdu conf).

(** *** The observations distribute over concatenation *)

Lemma encodes_app tr1 tr2 : encodes (tr1 ++ tr2) = encodes tr1 ++ encodes tr2.
Proof.
  induction tr1 as [|e tr1 IH]; [reflexivity|].
  destruct e; cbn [app encodes]; rewrite IH; reflexivity.
Qed.

Lemma transmitted_app tr1 tr2 :
  transmitted (tr1 ++ tr2) = transmitted tr1 ++ transmitted tr2.
Proof.
  induction tr1 as [|e tr1 IH]; [reflexivity|].
  destruct e; cbn [app transmitted]; rewrite IH; reflexivity.
Qed.

Lemma sleeps_app tr1 tr2 : sleeps (tr1 ++ tr2) = sleeps tr1 ++ sleeps tr2.
Proof.
  induction tr1 as [|e tr1 IH]; [reflexivity|].
  destruct e; cbn [app sleeps]; rewrite IH; reflexivity.
Qed.

Lemma aprsd_messages_app tr1 tr2 :
  aprsd_messages (tr1 ++ tr2) = aprsd_messages tr1 ++ aprsd_messages tr2.
Proof.
  induction tr1 as [|e tr1 IH]; [reflexivity|].
  destruct e as [| | |p ok| | | |]; cbn [app aprsd_messages];
    try (rewrite IH; reflexivity).
  destruct p; rewrite IH; reflexivity.
Qed.

(** *** The steps of a cycle, seen through the observations *)

Lemma telemetry_step_encodes i t :
  encodes (telemetry_step i t)
  = [(telemetry_pdu t, in_encode i (telemetry_pdu t))].
Proof.
  unfold Beacon.telemetry_step.
  destruct (in_encode i (telemetry_pdu t)); reflexivity.
Qed.

Lemma telemetry_step_transmitted i t :
  transmitted (telemetry_step i t)
  = filter (in_encode i) [telemetry_pdu t].
Proof.
  unfold Beacon.telemetry_step. cbn [filter].
  destruct (in_encode i (telemetry_pdu t)); reflexivity.
Qed.

Lemma telemetry_step_sleeps i t :
  sleeps (telemetry_step i t) = [TIME_S2I ch 5].
Proof.
  unfold Beacon.telemetry_step.
  destruct (in_encode i (telemetry_pdu t)); reflexivity.
Qed.

Lemma telemetry_step_aprsd i t : aprsd_messages (telemetry_step i t) = [].
Proof.
  unfold Beacon.telemetry_step.
  destruct (in_encode i (telemetry_pdu t)); reflexivity.
Qed.

Lemma telemetry_group_encodes i :
  encodes (telemetry_group i)
  = map (fun p => (p, in_encode i p)) (map telemetry_pdu telemetry_types).
Proof.
  unfold Beacon.telemetry_group.
  induction telemetry_types as [|t ts IH]; [reflexivity|].
  cbn [flat_map map]. rewrite encodes_app, telemetry_step_encodes, IH. reflexivity.
Qed.

Lemma telemetry_group_transmitted i :
  transmitted (telemetry_group i)
  = filter (in_encode i) (map telemetry_pdu telemetry_types).
Proof.
  unfold Beacon.telemetry_group.
  induction telemetry_types as [|t ts IH]; [reflexivity|].
  cbn [flat_map map]. rewrite transmitted_app, telemetry_step_transmitted, IH.
  cbn [filter]. destruct (in_encode i (telemetry_pdu t)); reflexivity.
Qed.

Lemma telemetry_group_sleeps i :
  sleeps (telemetry_group i)
  = map (fun _ => TIME_S2I ch 5) (map telemetry_pdu telemetry_types).
Proof.
  unfold Beacon.telemetry_group.
  induction telemetry_types as [|t ts IH]; [reflexivity|].
  cbn [flat_map map]. rewrite sleeps_app, telemetry_step_sleeps, IH. reflexivity.
Qed.

Lemma telemetry_group_aprsd i : aprsd_messages (telemetry_group i) = [].
Proof.
  unfold Beacon.telemetry_group.
  induction telemetry_types as [|t ts IH]; [reflexivity|].
  cbn [flat_map]. rewrite aprsd_messages_app, telemetry_step_aprsd, IH. reflexivity.
Qed.

Lemma next_trigger_quiet st i :
  encodes (fst (next_trigger st i)) = [] /\
  transmitted (fst (next_trigger st i)) = [] /\
  sleeps (fst (next_trigger st i)) = [] /\
  aprsd_messages (fst (next_trigger st i)) = [].
Proof. unfold Beacon.next_trigger. destruct (run_once conf); repeat split. Qed.

(** A cycle that does not transmit, and a cycle that does. *)
Lemma bcn_cycle_sleeping st i :
  in_p_sleep i = true ->
  bcn_cycle st i = (Collect :: fst (next_trigger st i), snd (next_trigger st i)).
Proof.
  intros Hs. unfold Beacon.bcn_cycle. rewrite Hs. cbn [negb].
  destruct (next_trigger st i). reflexivity.
Qed.

Lemma bcn_cycle_waiting_for_position st i :
  in_p_sleep i = false ->
  negb (isPositionValid (in_dataPoint i)) || is_null (in_dataPoint i) = true ->
  bcn_cycle st i = ([Collect; Sleep (TIME_S2I ch 60)], Running st).
Proof.
  intros Hs Hv. unfold Beacon.bcn_cycle. rewrite Hs, Hv. reflexivity.
Qed.

Lemma bcn_cycle_transmitting st i :
  transmitting i = true ->
  bcn_cycle st i
  = (Collect :: (if telemetry_due st i then telemetry_group i else [])
       ++ position_step i ++ aprsd_step i
       ++ fst (next_trigger (after_telemetry st i) i),
     snd (next_trigger (after_telemetry st i) i)).
Proof.
  unfold Beacon.transmitting. intros Ht.
  apply andb_true_iff in Ht. destruct Ht as [Hs Hv].
  apply negb_true_iff in Hv.
  unfold Beacon.bcn_cycle. rewrite Hs, Hv.
  fold (after_telemetry st i).
  destruct (next_trigger (after_telemetry st i) i). reflexivity.
Qed.

Lemma transmitting_false i :
  transmitting i = false ->
  in_p_sleep i = true \/
  (in_p_sleep i = false /\
   negb (isPositionValid (in_dataPoint i)) || is_null (in_dataPoint i) = true).
Proof.
  unfold Beacon.transmitting.
  destruct (in_p_sleep i); [left; reflexivity|].
  cbn [negb andb]. intros H. right. split; [reflexivity|].
  apply negb_false_iff in H. exact H.
Qed.

Lemma position_step_encodes i :
  encodes (position_step i) = [(position_pdu i, in_encode i (position_pdu i))].
Proof.
  unfold Beacon.position_step.
  destruct (in_encode i (position_pdu i)); reflexivity.
Qed.

Lemma position_step_transmitted i :
  transmitted (position_step i) = filter (in_encode i) [position_pdu i].
Proof.
  unfold Beacon.position_step. cbn [filter].
  destruct (in_encode i (position_pdu i)); reflexivity.
Qed.

Lemma position_step_sleeps i :
  sleeps (position_step i)
  = map (fun _ => TIME_S2I ch 5) (filter (in_encode i) [position_pdu i]).
Proof.
  unfold Beacon.position_step. cbn [filter].
  destruct (in_encode i (position_pdu i)); reflexivity.
Qed.

Lemma position_step_aprsd i : aprsd_messages (position_step i) = [].
Proof.
  unfold Beacon.position_step.
  destruct (in_encode i (position_pdu i)); reflexivity.
Qed.

Lemma aprsd_step_encodes i :
  encodes (aprsd_step i) = [(aprsd_pdu, in_encode i aprsd_pdu)].
Proof.
  unfold Beacon.aprsd_step.
  destruct (in_encode i aprsd_pdu); reflexivity.
Qed.

Lemma aprsd_step_transmitted i :
  transmitted (aprsd_step i) = filter (in_encode i) [aprsd_pdu].
Proof.
  unfold Beacon.aprsd_step. cbn [filter].
  destruct (in_encode i aprsd_pdu); reflexivity.
Qed.

Lemma aprsd_step_sleeps i :
  sleeps (aprsd_step i)
  = map (fun _ => TIME_S2I ch 5) (filter (in_encode i) [aprsd_pdu]).
Proof.
  unfold Beacon.aprsd_step. cbn [filter].
  destruct (in_encode i aprsd_pdu); reflexivity.
Qed.

Lemma aprsd_step_aprsd i :
  aprsd_messages (aprsd_step i)
  = [ aprs_compose_aprsd_message (call conf)
        (if enabled (base conf_sram) then base_path (base conf_sram) else path conf)
        (if enabled (base conf_sram) then base_call (base conf_sram) else call conf) ].
Proof.
  unfold Beacon.aprsd_step, Beacon.aprsd_pdu.
  match goal with |- context [in_encode i ?p] => destruct (in_encode i p) end;
    reflexivity.
Qed.

(** *** Cycles without a valid position *)

(** C4.  In a cycle whose snapshot does not pass the validity test the
    thread calls no encoder and hands nothing to the radio; when the sleep
    condition is not met the whole cycle is the collector request followed
    by a 60 s sleep, after which the loop starts over with unchanged locals
    (no [run_once] exit and no wait for the trigger in between), that is,
    with the next request to the collector. *)
Theorem invalid_position_is_never_sent (st : bcn_state) (i : cycle_in) :
  isPositionValid (in_dataPoint i) = false ->
  encodes (fst (bcn_cycle st i)) = [] /\
  transmitted (fst (bcn_cycle st i)) = [] /\
  (in_p_sleep i = false ->
   bcn_cycle st i = ([Collect; Sleep (TIME_S2I ch 60)], Running st) /\
   forall ins,
     bcn_loop st (i :: ins) = [Collect; Sleep (TIME_S2I ch 60)] ++ bcn_loop st ins).
Proof.
  intros Hinv.
  assert (Hv : negb (isPositionValid (in_dataPoint i)) || is_null (in_dataPoint i)
               = true) by (rewrite Hinv; reflexivity).
  destruct (in_p_sleep i) eqn:Hs.
  - rewrite (bcn_cycle_sleeping st i Hs). cbn [fst encodes transmitted].
    destruct (next_trigger_quiet st i) as (He & Ht & _).
    repeat split; try assumption; discriminate.
  - split; [|split]; [| |intros _; split; [|intros ins; cbn [Beacon.bcn_loop]]];
      rewrite (bcn_cycle_waiting_for_position st i Hs Hv); reflexivity.
Qed.

(** *** The APRSD message *)

(** C7.  In a cycle that transmits, exactly one APRSD message is composed.
    Its originator is the beacon's own call; it goes to the base station's
    call over the base station's path when [conf_sram.base.enabled] is set
    and to the beacon's own call over its own path otherwise; it requests
    no acknowledgment; and it is handed to the radio whenever the encoder
    returned a packet for it. *)
Theorem aprsd_goes_to_base_or_self (st : bcn_state) (i : cycle_in) :
  transmitting i = true ->
  exists m,
    aprsd_messages (fst (bcn_cycle st i)) = [m] /\
    originator m = call conf /\
    recipient m = (if enabled (base conf_sram)
                   then base_call (base conf_sram) else call conf) /\
    via m = (if enabled (base conf_sram)
             then base_path (base conf_sram) else path conf) /\
    ack_requested m = false /\
    (in_encode i (Aprsd m) = true -> In (Aprsd m) (transmitted (fst (bcn_cycle st i)))).
Proof.
  intros Ht.
  rewrite (bcn_cycle_transmitting st i Ht). cbn [fst].
  eexists. split; [|split; [|split; [|split; [|split]]]].
  - change (Collect :: ?l) with ([Collect] ++ l).
    rewrite !aprsd_messages_app, position_step_aprsd, aprsd_step_aprsd.
    destruct (next_trigger_quiet (after_telemetry st i) i) as (_ & _ & _ & Hq).
    rewrite Hq.
    destruct (telemetry_due st i); [rewrite telemetry_group_aprsd|];
      reflexivity.
  - reflexivity.
  - reflexivity.
  - reflexivity.
  - reflexivity.
  - intros Hok.
    change (Collect :: ?l) with ([Collect] ++ l).
    rewrite !transmitted_app, aprsd_step_transmitted.
    apply in_or_app; right. apply in_or_app; right. apply in_or_app; right.
    apply in_or_app; left.
    unfold Beacon.aprsd_pdu in *. cbn [filter]. rewrite Hok. left. reflexivity.
Qed.

(** *** A zero telemetry-configuration cycle *)

Lemma telemetry_never_due_when_zero st i :
  tel_enc_cycle conf_sram = 0 -> telemetry_due st i = false.
Proof. intros Hz. unfold Beacon.telemetry_due. rewrite Hz. reflexivity. Qed.

Lemma next_trigger_free st i :
  free_of_telemetry_configuration (fst (next_trigger st i)) = true.
Proof. unfold Beacon.next_trigger. destruct (run_once conf); reflexivity. Qed.

Lemma position_step_free i :
  free_of_telemetry_configuration (position_step i) = true.
Proof.
  unfold Beacon.position_step.
  destruct (in_encode i (position_pdu i)); reflexivity.
Qed.

Lemma aprsd_step_free i :
  free_of_telemetry_configuration (aprsd_step i) = true.
Proof.
  unfold Beacon.aprsd_step, Beacon.aprsd_pdu.
  match goal with |- context [in_encode i ?p] => destruct (in_encode i p) end;
    reflexivity.
Qed.

Lemma bcn_cycle_free st i :
  tel_enc_cycle conf_sram = 0 ->
  free_of_telemetry_configuration (fst (bcn_cycle st i)) = true.
Proof.
  intros Hz.
  destruct (transmitting i) eqn:Ht.
  - rewrite (bcn_cycle_transmitting st i Ht). cbn [fst].
    rewrite (telemetry_never_due_when_zero st i Hz).
    unfold free_of_telemetry_configuration.
    cbn [forallb telemetry_configuration_event negb andb app].
    rewrite !forallb_app.
    fold (free_of_telemetry_configuration (position_step i)).
    fold (free_of_telemetry_configuration (aprsd_step i)).
    fold (free_of_telemetry_configuration
            (fst (next_trigger (after_telemetry st i) i))).
    rewrite position_step_free, aprsd_step_free, next_trigger_free.
    reflexivity.
  - destruct (transmitting_false i Ht) as [Hs | [Hs Hv]].
    + rewrite (bcn_cycle_sleeping st i Hs). cbn [fst].
      unfold free_of_telemetry_configuration.
      cbn [forallb telemetry_configuration_event negb andb].
      apply next_trigger_free.
    + rewrite (bcn_cycle_waiting_for_position st i Hs Hv). reflexivity.
Qed.

Lemma bcn_loop_free ins :
  tel_enc_cycle conf_sram = 0 ->
  forall st, free_of_telemetry_configuration (bcn_loop st ins) = true.
Proof.
  intros Hz. induction ins as [|i ins IH]; intro st; [reflexivity|].
  cbn [Beacon.bcn_loop].
  pose proof (bcn_cycle_free st i Hz) as Hc.
  destruct (bcn_cycle st i) as [events out]. cbn [fst] in Hc.
  unfold free_of_telemetry_configuration in *.
  rewrite forallb_app, Hc. cbn [andb].
  destruct out as [st'|]; [apply IH|reflexivity].
Qed.

(** *** The order of transmissions within a cycle *)

Lemma telemetry_types_are_four : telemetry_types = [0; 1; 2; 3].
Proof. reflexivity. Qed.

Lemma last_app_singleton (tr : list event) (e d : event) : last (tr ++ [e]) d = e.
Proof.
  induction tr as [|x tr IH]; [reflexivity|].
  cbn [app]. destruct (tr ++ [e]) eqn:Heq.
  - destruct tr; discriminate.
  - cbn [last]. exact IH.
Qed.

Lemma next_trigger_shape st i :
  next_trigger st i
  = ([if run_once conf then Exit
      else WaitForTrigger (time st) (cycle (beacon conf))],
     if run_once conf then Exited
     else Running {| last_conf_transmission := last_conf_transmission st;
                     time := in_trigger i |}).
Proof. unfold Beacon.next_trigger. destruct (run_once conf); reflexivity. Qed.

Lemma after_telemetry_time st i : time (after_telemetry st i) = time st.
Proof. unfold Beacon.after_telemetry. destruct (telemetry_due st i); reflexivity. Qed.

(** The calls of a cycle that transmits, one after the other. *)
Lemma bcn_cycle_trace (st : bcn_state) (i : cycle_in) :
  transmitting i = true ->
  fst (bcn_cycle st i)
  = [Collect]
    ++ flat_map
         (fun p =>
            (if in_encode i p
             then [Encoded p true;
                   TransmitOnRadio p (freq (radio_conf conf)) 0 0
                     (pwr (radio_conf conf)) (mod_ (radio_conf conf))
                     (cca (radio_conf conf)) (in_radio i p)]
             else [Encoded p false])
            ++ [Sleep (TIME_S2I ch 5)])
         (if telemetry_due st i then map telemetry_pdu [0; 1; 2; 3] else [])
    ++ (if in_encode i (position_pdu i)
        then [Encoded (position_pdu i) true;
              TransmitOnRadio (position_pdu i) (freq (radio_conf conf)) 0 0
                (pwr (radio_conf conf)) (mod_ (radio_conf conf))
                (cca (radio_conf conf)) (in_radio i (position_pdu i));
              Sleep (TIME_S2I ch 5)]
        else [Encoded (position_pdu i) false])
    ++ (if in_encode i aprsd_pdu
        then [Encoded aprsd_pdu true;
              TransmitOnRadio aprsd_pdu (freq (radio_conf conf)) 0 0
                (pwr (radio_conf conf)) (mod_ (radio_conf conf))
                (cca (radio_conf conf)) (in_radio i aprsd_pdu);
              Sleep (TIME_S2I ch 5)]
        else [Encoded aprsd_pdu false])
    ++ [if run_once conf then Exit
        else WaitForTrigger (time st) (cycle (beacon conf))].
Proof.
  intros Ht.
  rewrite (bcn_cycle_transmitting st i Ht). cbn [fst].
  rewrite next_trigger_shape, after_telemetry_time. cbn [fst].
  destruct (telemetry_due st i); reflexivity.
Qed.

(** C2 (as amended).  In a cycle in which the sleep condition is not met
    and the snapshot is valid, the calls of the thread are, in this order:
    the request to the collector; when [tel_enc_cycle] is non-zero and has
    elapsed, for each of the four telemetry-configuration types 0 to 3 the
    encoder call, the hand-over to the radio if the encoder returned a
    packet, and a 5 s sleep; the encoder call for the position packet and,
    if it returned a packet, the hand-over to the radio and a 5 s sleep;
    the same for the APRSD message; and last the wait for the trigger,
    or, if [run_once] is set, the exit of the thread.  The packets handed
    to the radio are therefore those the encoder returned, in that order,
    one for which it returned [NULL] being skipped. *)
Theorem transmitting_cycle_order (st : bcn_state) (i : cycle_in) :
  transmitting i = true ->
  let tr := fst (bcn_cycle st i) in
  let due :=
    negb (tel_enc_cycle conf_sram =? 0)
    && (tel_enc_cycle conf_sram
          <=? chVTTimeElapsedSinceX ch (in_now i) (last_conf_transmission st)) in
  let group := if due then map telemetry_pdu [0; 1; 2; 3] else [] in
  let tx :=
    fun p =>
      TransmitOnRadio p (freq (radio_conf conf)) 0 0 (pwr (radio_conf conf))
        (mod_ (radio_conf conf)) (cca (radio_conf conf)) (in_radio i p) in
  let five := Sleep (TIME_S2I ch 5) in
  tr = [Collect]
       ++ flat_map
            (fun p =>
               (if in_encode i p then [Encoded p true; tx p]
                else [Encoded p false])
               ++ [five])
            group
       ++ (if in_encode i (position_pdu i)
           then [Encoded (position_pdu i) true; tx (position_pdu i); five]
           else [Encoded (position_pdu i) false])
       ++ (if in_encode i aprsd_pdu
           then [Encoded aprsd_pdu true; tx aprsd_pdu; five]
           else [Encoded aprsd_pdu false])
       ++ [if run_once conf then Exit
           else WaitForTrigger (time st) (cycle (beacon conf))] /\
  map fst (encodes tr) = group ++ [position_pdu i; aprsd_pdu] /\
  transmitted tr = filter (in_encode i) (group ++ [position_pdu i; aprsd_pdu]) /\
  sleeps tr
    = map (fun _ => TIME_S2I ch 5)
        (group ++ filter (in_encode i) [position_pdu i; aprsd_pdu]) /\
  last tr Collect
    = (if run_once conf then Exit
       else WaitForTrigger (time st) (cycle (beacon conf))) /\
  snd (bcn_cycle st i)
    = (if run_once conf then Exited
       else Running {| last_conf_transmission :=
                         last_conf_transmission (after_telemetry st i);
                       time := in_trigger i |}).
Proof.
  intros Ht tr due group tx five.
  change due with (telemetry_due st i) in group.
  split; [exact (bcn_cycle_trace st i Ht)|].
  subst tr group. clear due tx five.
  rewrite (bcn_cycle_transmitting st i Ht). cbn [fst snd].
  rewrite next_trigger_shape, after_telemetry_time. cbn [fst snd].
  rewrite <- telemetry_types_are_four.
  change (Collect :: ?l) with ([Collect] ++ l).
  repeat split.
  - rewrite !encodes_app, position_step_encodes, aprsd_step_encodes.
    destruct (telemetry_due st i).
    + rewrite telemetry_group_encodes.
      destruct (run_once conf); cbn [encodes app];
        rewrite !map_app, map_map, map_id; reflexivity.
    + destruct (run_once conf); reflexivity.
  - rewrite !transmitted_app, position_step_transmitted, aprsd_step_transmitted.
    rewrite filter_app.
    destruct (telemetry_due st i).
    + rewrite telemetry_group_transmitted.
      destruct (run_once conf); cbn [transmitted app filter];
        destruct (in_encode i (position_pdu i)), (in_encode i aprsd_pdu);
        rewrite ?app_nil_r; reflexivity.
    + destruct (run_once conf); cbn [transmitted app filter];
        destruct (in_encode i (position_pdu i)), (in_encode i aprsd_pdu);
        reflexivity.
  - rewrite !sleeps_app, position_step_sleeps, aprsd_step_sleeps.
    rewrite map_app.
    destruct (telemetry_due st i).
    + rewrite telemetry_group_sleeps.
      destruct (run_once conf); cbn [sleeps app filter];
        destruct (in_encode i (position_pdu i)), (in_encode i aprsd_pdu);
        rewrite ?app_nil_r; reflexivity.
    + destruct (run_once conf); cbn [sleeps app filter];
        destruct (in_encode i (position_pdu i)), (in_encode i aprsd_pdu);
        reflexivity.
  - rewrite !app_assoc. apply last_app_singleton.
Qed.

(** The same cycle spelled out when the telemetry configuration is due,
    every encoder call returns a packet and [run_once] is not set. *)
Lemma nominal_cycle_trace (st : bcn_state) (i : cycle_in) :
  transmitting i = true ->
  telemetry_due st i = true ->
  (forall p, in_encode i p = true) ->
  run_once conf = false ->
  let tx := Beacon.transmitOnRadio conf i in
  let five := Sleep (TIME_S2I ch 5) in
  fst (bcn_cycle st i)
  = [ Collect;
      Encoded (telemetry_pdu 0) true; tx (telemetry_pdu 0); five;
      Encoded (telemetry_pdu 1) true; tx (telemetry_pdu 1); five;
      Encoded (telemetry_pdu 2) true; tx (telemetry_pdu 2); five;
      Encoded (telemetry_pdu 3) true; tx (telemetry_pdu 3); five;
      Encoded (position_pdu i) true; tx (position_pdu i); five;
      Encoded aprsd_pdu true; tx aprsd_pdu; five;
      WaitForTrigger (time st) (cycle (beacon conf)) ].
Proof.
  intros Ht Hdue Henc Hrun tx five.
  rewrite (bcn_cycle_transmitting st i Ht). cbn [fst].
  rewrite Hdue, next_trigger_shape, after_telemetry_time, Hrun. cbn [fst].
  unfold Beacon.telemetry_group, Beacon.telemetry_step, Beacon.position_step,
    Beacon.aprsd_step.
  rewrite telemetry_types_are_four. cbn [flat_map].
  rewrite !Henc. reflexivity.
Qed.

(** *** The first position packet of a boot *)

Local Abbreviation first_transmitting := (Beacon.first_transmitting isPositionValid conf).
Local Abbreviation counter_in_window :=
  (Beacon.counter_in_window ch isPositionValid conf_sram conf).

(** The elapsed-time test against the initial [last_conf_transmission]:
    with [d] the distance the tick counter has moved since thread start,
    the test reads [d + tel_enc_cycle] modulo the counter's range. *)
Lemma elapsed_since_boot (b : boot_in) (now : Z) :
  chVTTimeElapsedSinceX ch now
    (tick_sub ch (now_conf b) (tel_enc_cycle conf_sram))
  = wrap ch (tick_sub ch now (now_conf b) + tel_enc_cycle conf_sram).
Proof.
  unfold chVTTimeElapsedSinceX, tick_sub, wrap.
  rewrite Zminus_mod_idemp_r, Zplus_mod_idemp_l.
  f_equal. lia.
Qed.

Lemma telemetry_due_in_window (b : boot_in) (st : bcn_state) (i : cycle_in) :
  0 <= CH_CFG_ST_RESOLUTION ch ->
  0 < tel_enc_cycle conf_sram ->
  last_conf_transmission st
    = tick_sub ch (now_conf b) (tel_enc_cycle conf_sram) ->
  tick_sub ch (in_now i) (now_conf b) + tel_enc_cycle conf_sram
    < 2 ^ CH_CFG_ST_RESOLUTION ch ->
  telemetry_due st i = true.
Proof.
  intros Hw Hpos Hlast Hwin.
  unfold Beacon.telemetry_due. rewrite Hlast, elapsed_since_boot.
  assert (Hm : 0 < 2 ^ CH_CFG_ST_RESOLUTION ch) by (apply Z.pow_pos_nonneg; lia).
  assert (Hd : 0 <= tick_sub ch (in_now i) (now_conf b))
    by (unfold tick_sub, wrap; apply Z.mod_pos_bound; exact Hm).
  unfold wrap at 1. rewrite Z.mod_small by lia.
  apply andb_true_iff. split.
  - apply negb_true_iff, Z.eqb_neq. lia.
  - apply Z.leb_le. lia.
Qed.

(** Past the window the same test fails: the sum has wrapped around. *)
Lemma telemetry_not_due_past_window (b : boot_in) (st : bcn_state) (i : cycle_in) :
  0 < tel_enc_cycle conf_sram < 2 ^ CH_CFG_ST_RESOLUTION ch ->
  last_conf_transmission st
    = tick_sub ch (now_conf b) (tel_enc_cycle conf_sram) ->
  2 ^ CH_CFG_ST_RESOLUTION ch
    <= tick_sub ch (in_now i) (now_conf b) + tel_enc_cycle conf_sram ->
  telemetry_due st i = false.
Proof.
  intros Hrange Hlast Hout.
  unfold Beacon.telemetry_due. rewrite Hlast, elapsed_since_boot.
  assert (Hm : 0 < 2 ^ CH_CFG_ST_RESOLUTION ch) by lia.
  assert (Hd : 0 <= tick_sub ch (in_now i) (now_conf b)
                 < 2 ^ CH_CFG_ST_RESOLUTION ch)
    by (unfold tick_sub, wrap; apply Z.mod_pos_bound; exact Hm).
  set (d := tick_sub ch (in_now i) (now_conf b)) in *.
  set (m := 2 ^ CH_CFG_ST_RESOLUTION ch) in *.
  assert (Hwrap : wrap ch (d + tel_enc_cycle conf_sram)
                  = d + tel_enc_cycle conf_sram - m).
  { unfold wrap. fold m. symmetry.
    apply (Z.mod_unique _ _ 1); [left; lia | lia]. }
  rewrite Hwrap.
  apply andb_false_iff. right. apply Z.leb_gt. lia.
Qed.

(** Until the first cycle that transmits, no encoder and no radio call is
    made and [last_conf_transmission] keeps its initial value; that cycle
    then runs the telemetry-configuration loop and, directly after it,
    the position step. *)
Lemma bcn_loop_until_first_transmission (b : boot_in) :
  0 <= CH_CFG_ST_RESOLUTION ch ->
  0 < tel_enc_cycle conf_sram ->
  forall (ins : list cycle_in) (st : bcn_state),
    last_conf_transmission st
      = tick_sub ch (now_conf b) (tel_enc_cycle conf_sram) ->
    counter_in_window b ins = true ->
    match first_transmitting ins with
    | Some i =>
        exists pre rest,
          bcn_loop st ins
          = pre ++ telemetry_group i ++ position_step i ++ rest /\
          encodes pre = [] /\ transmitted pre = []
    | None =>
        encodes (bcn_loop st ins) = [] /\ transmitted (bcn_loop st ins) = []
    end.
Proof.
  intros Hw Hpos.
  induction ins as [|i ins IH]; intros st Hlast Hwin; [split; reflexivity|].
  unfold Beacon.counter_in_window in Hwin. cbn [Beacon.first_transmitting] in *.
  cbn [Beacon.bcn_loop].
  destruct (transmitting i) eqn:Ht.
  - apply Z.ltb_lt in Hwin.
    pose proof (telemetry_due_in_window b st i Hw Hpos Hlast Hwin) as Hdue.
    rewrite (bcn_cycle_transmitting st i Ht), Hdue.
    exists [Collect].
    exists (aprsd_step i ++ fst (next_trigger (after_telemetry st i) i)
            ++ match snd (next_trigger (after_telemetry st i) i) with
               | Running st' => bcn_loop st' ins
               | Exited => []
               end).
    split; [|split; reflexivity].
    cbn [app]. rewrite <- !app_assoc. reflexivity.
  - destruct (transmitting_false i Ht) as [Hs | [Hs Hv]].
    + rewrite (bcn_cycle_sleeping st i Hs), next_trigger_shape. cbn [fst snd].
      rewrite Hs in *. cbn [andb] in *.
      destruct (run_once conf) eqn:Hrun.
      * split; reflexivity.
      * specialize (IH {| last_conf_transmission := last_conf_transmission st;
                          time := in_trigger i |} Hlast Hwin).
        destruct (first_transmitting ins) as [j|].
        -- destruct IH as (pre & rest & Heq & He & Htx).
           exists ([Collect; WaitForTrigger (time st) (cycle (beacon conf))] ++ pre).
           exists rest. rewrite Heq, encodes_app, transmitted_app, He, Htx.
           rewrite <- app_assoc. repeat split.
        -- cbn [app encodes transmitted]. exact IH.
    + rewrite (bcn_cycle_waiting_for_position st i Hs Hv).
      rewrite Hs in *. cbn [andb] in *.
      specialize (IH st Hlast Hwin).
      destruct (first_transmitting ins) as [j|].
      * destruct IH as (pre & rest & Heq & He & Htx).
        exists ([Collect; Sleep (TIME_S2I ch 60)] ++ pre).
        exists rest. rewrite Heq, encodes_app, transmitted_app, He, Htx.
        rewrite <- app_assoc. repeat split.
      * cbn [app encodes transmitted]. exact IH.
Qed.

Lemma handed_over_app tr1 tr2 :
  handed_over tr1 -> handed_over tr2 -> handed_over (tr1 ++ tr2).
Proof.
  unfold handed_over. intros H1 H2.
  rewrite transmitted_app, encodes_app, filter_app, map_app, H1, H2.
  reflexivity.
Qed.

Lemma handed_over_telemetry_group i : handed_over (telemetry_group i).
Proof.
  unfold Beacon.telemetry_group.
  induction telemetry_types as [|t ts IH]; [reflexivity|].
  cbn [flat_map]. apply handed_over_app; [|exact IH].
  unfold handed_over, Beacon.telemetry_step.
  destruct (in_encode i (telemetry_pdu t)); reflexivity.
Qed.

Lemma handed_over_cycle st i : handed_over (fst (bcn_cycle st i)).
Proof.
  destruct (transmitting i) eqn:Ht.
  - rewrite (bcn_cycle_transmitting st i Ht), next_trigger_shape. cbn [fst].
    change (Collect :: ?l) with ([Collect] ++ l).
    repeat apply handed_over_app.
    + reflexivity.
    + destruct (telemetry_due st i);
        [apply handed_over_telemetry_group | reflexivity].
    + unfold handed_over, Beacon.position_step.
      destruct (in_encode i (position_pdu i)); reflexivity.
    + unfold handed_over, Beacon.aprsd_step.
      destruct (in_encode i aprsd_pdu); reflexivity.
    + destruct (run_once conf); reflexivity.
  - destruct (transmitting_false i Ht) as [Hs | [Hs Hv]].
    + rewrite (bcn_cycle_sleeping st i Hs), next_trigger_shape. cbn [fst].
      destruct (run_once conf); reflexivity.
    + rewrite (bcn_cycle_waiting_for_position st i Hs Hv). reflexivity.
Qed.

Lemma handed_over_loop ins : forall st, handed_over (bcn_loop st ins).
Proof.
  induction ins as [|i ins IH]; intro st; [reflexivity|].
  cbn [Beacon.bcn_loop].
  pose proof (handed_over_cycle st i) as Hc.
  destruct (bcn_cycle st i) as [events out]. cbn [fst] in Hc.
  apply handed_over_app; [exact Hc|].
  destruct out; [apply IH | reflexivity].
Qed.

(** C1 (as amended).  Let [tel_enc_cycle] be non-zero and let the tick
    counter, when the first transmitting cycle of the boot evaluates the
    elapsed-time test, be less than a full turn of the counter minus
    [tel_enc_cycle] past the reading taken at thread start.  If the run has
    a first transmitting cycle, the thread's trace is: calls among which
    there is no encoder and no radio call; then, for each of the four
    telemetry-configuration types 0 to 3, the encoder call, the hand-over
    to the radio if the encoder returned a packet, and a 5 s sleep; then
    directly the encoder call for the first position packet and, if it
    returned a packet, its hand-over to the radio.  If the run has no
    transmitting cycle, no encoder and no radio call is made at all.  In
    both cases the packets handed to the radio are, in order, exactly
    those the encoder returned. *)
Theorem first_position_follows_telemetry_configuration
    (b : boot_in) (ins : list cycle_in) :
  0 <= CH_CFG_ST_RESOLUTION ch ->
  0 < tel_enc_cycle conf_sram ->
  counter_in_window b ins = true ->
  let tr := bcnThread b ins in
  match first_transmitting ins with
  | Some i =>
      let tx :=
        fun p =>
          TransmitOnRadio p (freq (radio_conf conf)) 0 0 (pwr (radio_conf conf))
            (mod_ (radio_conf conf)) (cca (radio_conf conf)) (in_radio i p) in
      let five := Sleep (TIME_S2I ch 5) in
      exists pre rest,
        tr = pre
             ++ flat_map
                  (fun p =>
                     (if in_encode i p then [Encoded p true; tx p]
                      else [Encoded p false])
                     ++ [five])
                  (map telemetry_pdu [0; 1; 2; 3])
             ++ (if in_encode i (position_pdu i)
                 then [Encoded (position_pdu i) true; tx (position_pdu i); five]
                 else [Encoded (position_pdu i) false])
             ++ rest /\
        encodes pre = [] /\
        transmitted pre = [] /\
        encodes tr
        = map (fun p => (p, in_encode i p))
            (map telemetry_pdu [0; 1; 2; 3] ++ [position_pdu i])
          ++ encodes rest
  | None => encodes tr = [] /\ transmitted tr = []
  end /\
  transmitted tr = map fst (filter snd (encodes tr)).
Proof.
  intros Hw Hpos Hwin tr. subst tr.
  split.
  - unfold Beacon.bcnThread, Beacon.bcn_init.
    pose proof (bcn_loop_until_first_transmission b Hw Hpos ins
                  {| last_conf_transmission :=
                       tick_sub ch (now_conf b) (tel_enc_cycle conf_sram);
                     time := now_time b |} eq_refl Hwin) as Hloop.
    destruct (first_transmitting ins) as [i|].
    + destruct Hloop as (pre & rest & Heq & He & Htx).
      cbv zeta.
      exists ([InitDataCollector;
               SleepUntil (tick_add ch (now_delay b) (init_delay (beacon conf)))]
              ++ pre).
      exists rest.
      split; [|split; [|split]].
      * rewrite Heq, <- app_assoc. reflexivity.
      * rewrite encodes_app, He. reflexivity.
      * rewrite transmitted_app, Htx. reflexivity.
      * rewrite Heq.
        rewrite !encodes_app, He, telemetry_group_encodes, position_step_encodes.
        rewrite telemetry_types_are_four, map_app.
        cbn [encodes app map]. rewrite <- ?app_assoc. reflexivity.
    + destruct Hloop as [He Htx].
      rewrite encodes_app, transmitted_app, He, Htx. split; reflexivity.
  - apply handed_over_app; [reflexivity | apply handed_over_loop].
Qed.

(** *** Whole runs: what reaches the radio *)

Local Abbreviation bcn_loop_end := (Beacon.bcn_loop_end ch isPositionValid conf_sram conf).
Local Abbreviation waiting_for_position := (Beacon.waiting_for_position isPositionValid).
Local Abbreviation with_configured_radio := (Beacon.with_configured_radio conf).

(** X9.  Over a whole run, whatever the environment answers, the packets handed
    to the radio are exactly the packets the encoders returned, in the
    order of the encoder calls: a [NULL] from an encoder never reaches
    [transmitOnRadio], and nothing is transmitted twice. *)
Theorem radio_gets_exactly_the_encoded_packets
    (b : boot_in) (ins : list cycle_in) :
  transmitted (bcnThread b ins)
  = map fst (filter snd (encodes (bcnThread b ins))).
Proof.
  unfold Beacon.bcnThread, Beacon.bcn_init.
  apply handed_over_app; [reflexivity | apply handed_over_loop].
Qed.

Lemma position_snapshots_app tr1 tr2 :
  position_snapshots (tr1 ++ tr2)
  = position_snapshots tr1 ++ position_snapshots tr2.
Proof.
  induction tr1 as [|e tr1 IH]; [reflexivity|].
  destruct e as [| | |p ok| | | |]; cbn [app position_snapshots];
    try (rewrite IH; reflexivity).
  destruct p; rewrite IH; reflexivity.
Qed.

Lemma telemetry_group_snapshots i : position_snapshots (telemetry_group i) = [].
Proof.
  unfold Beacon.telemetry_group.
  induction telemetry_types as [|t ts IH]; [reflexivity|].
  cbn [flat_map]. rewrite position_snapshots_app, IH, app_nil_r.
  unfold Beacon.telemetry_step.
  destruct (in_encode i (telemetry_pdu t)); reflexivity.
Qed.

Lemma bcn_cycle_snapshots st i :
  position_snapshots (fst (bcn_cycle st i))
  = if transmitting i then [in_dataPoint i] else [].
Proof.
  destruct (transmitting i) eqn:Ht.
  - rewrite (bcn_cycle_transmitting st i Ht), next_trigger_shape. cbn [fst].
    change (Collect :: ?l) with ([Collect] ++ l).
    rewrite !position_snapshots_app.
    assert (Hg : position_snapshots
                   (if telemetry_due st i then telemetry_group i else []) = [])
      by (destruct (telemetry_due st i); [apply telemetry_group_snapshots | reflexivity]).
    rewrite Hg.
    unfold Beacon.position_step, Beacon.aprsd_step.
    destruct (in_encode i (position_pdu i)), (in_encode i aprsd_pdu),
      (run_once conf); reflexivity.
  - destruct (transmitting_false i Ht) as [Hs | [Hs Hv]].
    + rewrite (bcn_cycle_sleeping st i Hs), next_trigger_shape. cbn [fst].
      destruct (run_once conf); reflexivity.
    + rewrite (bcn_cycle_waiting_for_position st i Hs Hv). reflexivity.
Qed.

Lemma bcn_loop_snapshots ins :
  forall st,
    Forall (fun dp => isPositionValid dp = true /\ dp <> None)
           (position_snapshots (bcn_loop st ins)).
Proof.
  induction ins as [|i ins IH]; intro st; [constructor|].
  cbn [Beacon.bcn_loop].
  pose proof (bcn_cycle_snapshots st i) as Hc.
  destruct (bcn_cycle st i) as [events out]. cbn [fst] in Hc.
  rewrite position_snapshots_app, Hc.
  apply Forall_app. split.
  - destruct (transmitting i) eqn:Ht; [|constructor].
    unfold Beacon.transmitting in Ht.
    apply andb_true_iff in Ht. destruct Ht as [_ Hv].
    apply negb_true_iff, orb_false_iff in Hv. destruct Hv as [Hvalid Hnull].
    apply negb_false_iff in Hvalid.
    constructor; [|constructor].
    split; [exact Hvalid|].
    intros Hnone. rewrite Hnone in Hnull. discriminate.
  - destruct out; [apply IH | constructor].
Qed.

(** X10.  Every position packet of a run is encoded from a snapshot pointer
    that is not [NULL] and passes [isPositionValid]. *)
Theorem every_position_packet_has_a_valid_snapshot
    (b : boot_in) (ins : list cycle_in) :
  Forall (fun dp => isPositionValid dp = true /\ dp <> None)
         (position_snapshots (bcnThread b ins)).
Proof.
  unfold Beacon.bcnThread, Beacon.bcn_init.
  rewrite position_snapshots_app. cbn [position_snapshots app].
  apply bcn_loop_snapshots.
Qed.

(** X11.  Every call of [transmitOnRadio] in a run uses the frequency, power,
    modulation and CCA threshold of [conf->radio_conf], with step and
    channel 0. *)
Theorem every_transmission_uses_the_configured_radio
    (b : boot_in) (ins : list cycle_in) :
  Forall with_configured_radio (bcnThread b ins).
Proof.
  assert (Hgroup : forall i, Forall with_configured_radio (telemetry_group i)).
  { intros i. unfold Beacon.telemetry_group.
    induction telemetry_types as [|t ts IH]; [constructor|].
    cbn [flat_map]. apply Forall_app. split; [|exact IH].
    unfold Beacon.telemetry_step, Beacon.transmitOnRadio.
    destruct (in_encode i (telemetry_pdu t));
      repeat constructor. }
  assert (Hcycle : forall st i, Forall with_configured_radio (fst (bcn_cycle st i))).
  { intros st i. destruct (transmitting i) eqn:Ht.
    - rewrite (bcn_cycle_transmitting st i Ht), next_trigger_shape. cbn [fst].
      constructor; [exact I|].
      repeat (apply Forall_app; split).
      + destruct (telemetry_due st i); [apply Hgroup | constructor].
      + unfold Beacon.position_step, Beacon.transmitOnRadio.
        destruct (in_encode i (position_pdu i)); repeat constructor.
      + unfold Beacon.aprsd_step, Beacon.transmitOnRadio.
        destruct (in_encode i aprsd_pdu); repeat constructor.
      + destruct (run_once conf); repeat constructor.
    - destruct (transmitting_false i Ht) as [Hs | [Hs Hv]].
      + rewrite (bcn_cycle_sleeping st i Hs), next_trigger_shape. cbn [fst].
        destruct (run_once conf); repeat constructor.
      + rewrite (bcn_cycle_waiting_for_position st i Hs Hv).
        repeat constructor. }
  unfold Beacon.bcnThread, Beacon.bcn_init.
  apply Forall_app. split; [repeat constructor|].
  revert b. intros b. generalize (Build_bcn_state
    (tick_sub ch (now_conf b) (tel_enc_cycle conf_sram)) (now_time b)).
  induction ins as [|i ins IH]; intro st; [constructor|].
  cbn [Beacon.bcn_loop].
  pose proof (Hcycle st i) as Hc.
  destruct (bcn_cycle st i) as [events out]. cbn [fst] in Hc.
  apply Forall_app. split; [exact Hc|].
  destruct out; [apply IH | constructor].
Qed.

(** *** Whole runs: sleeping and waiting for a position *)

(** X12.  While the sleep condition is met in every cycle, the thread calls no
    encoder, hands nothing to the radio and never sleeps: it only asks the
    collector and waits for the trigger (or exits at once under
    [run_once]). *)
Theorem sleeping_run_is_silent (b : boot_in) (ins : list cycle_in) :
  Forall (fun i => in_p_sleep i = true) ins ->
  encodes (bcnThread b ins) = [] /\
  transmitted (bcnThread b ins) = [] /\
  sleeps (bcnThread b ins) = [].
Proof.
  intros Hall.
  unfold Beacon.bcnThread, Beacon.bcn_init.
  rewrite encodes_app, transmitted_app, sleeps_app.
  cbn [encodes transmitted sleeps app].
  generalize (Build_bcn_state
    (tick_sub ch (now_conf b) (tel_enc_cycle conf_sram)) (now_time b)).
  induction Hall as [|i ins Hs Hall IH]; intro st; [repeat split|].
  cbn [Beacon.bcn_loop].
  rewrite (bcn_cycle_sleeping st i Hs), next_trigger_shape. cbn [fst snd].
  destruct (run_once conf).
  - repeat split.
  - cbn [app encodes transmitted sleeps]. apply IH.
Qed.

(** X13.  While the thread is awake and the collector's snapshot (a
    pointer that is not [NULL]) does not pass [isPositionValid], it polls:
    a collector request and a 60 s sleep per cycle, with unchanged locals.
    This does not depend on [run_once]: a [run_once] thread does not exit
    before it has seen a valid position or a met sleep condition. *)
Theorem waiting_run_polls_every_minute (st : bcn_state) (ins : list cycle_in) :
  Forall (fun i => in_p_sleep i = false /\
                   in_dataPoint i <> None /\
                   isPositionValid (in_dataPoint i) = false) ins ->
  bcn_loop st ins = flat_map (fun _ => [Collect; Sleep (TIME_S2I ch 60)]) ins /\
  bcn_loop_end st ins = Running st.
Proof.
  intros Hall.
  induction Hall as [|i ins Hw Hall IH]; [split; reflexivity|].
  destruct Hw as (Hs & _ & Hinv).
  assert (Hv : negb (isPositionValid (in_dataPoint i)) || is_null (in_dataPoint i)
               = true) by (rewrite Hinv; reflexivity).
  cbn [Beacon.bcn_loop Beacon.bcn_loop_end flat_map].
  rewrite (bcn_cycle_waiting_for_position st i Hs Hv). cbn [snd].
  destruct IH as [IH1 IH2]. rewrite IH1, IH2. split; reflexivity.
Qed.

(** *** Whole runs: the telemetry-configuration schedule *)

Lemma telemetry_requests_app tr1 tr2 :
  telemetry_requests (tr1 ++ tr2)
  = telemetry_requests tr1 ++ telemetry_requests tr2.
Proof.
  induction tr1 as [|e tr1 IH]; [reflexivity|].
  destruct e as [| | |p ok| | | |]; cbn [app telemetry_requests];
    try (rewrite IH; reflexivity).
  destruct p; rewrite IH; reflexivity.
Qed.

Lemma telemetry_group_requests i :
  telemetry_requests (telemetry_group i) = map telemetry_pdu [0; 1; 2; 3].
Proof.
  unfold Beacon.telemetry_group, Beacon.telemetry_step.
  rewrite telemetry_types_are_four. cbn [flat_map map].
  destruct (in_encode i (telemetry_pdu 0)), (in_encode i (telemetry_pdu 1)),
    (in_encode i (telemetry_pdu 2)), (in_encode i (telemetry_pdu 3));
    reflexivity.
Qed.

Lemma bcn_cycle_requests st i :
  telemetry_requests (fst (bcn_cycle st i))
  = if transmitting i && telemetry_due st i
    then map telemetry_pdu [0; 1; 2; 3] else [].
Proof.
  destruct (transmitting i) eqn:Ht; cbn [andb].
  - rewrite (bcn_cycle_transmitting st i Ht), next_trigger_shape. cbn [fst].
    change (Collect :: ?l) with ([Collect] ++ l).
    rewrite !telemetry_requests_app.
    assert (Hrest : telemetry_requests (position_step i) = [] /\
                    telemetry_requests (aprsd_step i) = []).
    { unfold Beacon.position_step, Beacon.aprsd_step.
      destruct (in_encode i (position_pdu i)), (in_encode i aprsd_pdu);
        split; reflexivity. }
    destruct Hrest as [Hp Ha]. rewrite Hp, Ha.
    destruct (telemetry_due st i).
    + rewrite telemetry_group_requests.
      destruct (run_once conf); cbn [telemetry_requests app];
        rewrite ?app_nil_r; reflexivity.
    + destruct (run_once conf); reflexivity.
  - destruct (transmitting_false i Ht) as [Hs | [Hs Hv]].
    + rewrite (bcn_cycle_sleeping st i Hs), next_trigger_shape. cbn [fst].
      destruct (run_once conf); reflexivity.
    + rewrite (bcn_cycle_waiting_for_position st i Hs Hv). reflexivity.
Qed.

(** How a cycle leaves [last_conf_transmission]. *)
Lemma bcn_cycle_last st i st' :
  snd (bcn_cycle st i) = Running st' ->
  last_conf_transmission st'
  = if transmitting i && telemetry_due st i
    then tick_add ch (last_conf_transmission st) (tel_enc_cycle conf_sram)
    else last_conf_transmission st.
Proof.
  destruct (transmitting i) eqn:Ht; cbn [andb].
  - rewrite (bcn_cycle_transmitting st i Ht), next_trigger_shape. cbn [snd].
    destruct (run_once conf); [discriminate|].
    intros Heq. injection Heq as Heq. subst st'.
    cbn [last_conf_transmission]. unfold Beacon.after_telemetry.
    destruct (telemetry_due st i); reflexivity.
  - destruct (transmitting_false i Ht) as [Hs | [Hs Hv]].
    + rewrite (bcn_cycle_sleeping st i Hs), next_trigger_shape. cbn [snd].
      destruct (run_once conf); [discriminate|].
      intros Heq. injection Heq as Heq. subst st'. reflexivity.
    + rewrite (bcn_cycle_waiting_for_position st i Hs Hv). cbn [snd].
      intros Heq. injection Heq as Heq. subst st'. reflexivity.
Qed.

(** X14.  The telemetry-configuration encoder is only ever called in complete
    groups (types 0, 1, 2, 3 in this order, each from and to the beacon's
    own call sign), and [last_conf_transmission] advances by exactly one
    [tel_enc_cycle] per group, modulo the range of the tick counter: it is
    never set to the current time. *)
Theorem telemetry_groups_are_counted (st : bcn_state) (ins : list cycle_in) :
  exists k : nat,
    telemetry_requests (bcn_loop st ins)
      = List.concat (repeat (map telemetry_pdu [0; 1; 2; 3]) k) /\
    forall st',
      bcn_loop_end st ins = Running st' ->
      wrap ch (last_conf_transmission st')
      = wrap ch (last_conf_transmission st
                 + Z.of_nat k * tel_enc_cycle conf_sram).
Proof.
  revert st. induction ins as [|i ins IH]; intro st.
  - exists 0%nat. split; [reflexivity|].
    intros st' Heq. injection Heq as Heq. subst st'.
    f_equal. lia.
  - cbn [Beacon.bcn_loop Beacon.bcn_loop_end].
    pose proof (bcn_cycle_requests st i) as Hreq.
    pose proof (bcn_cycle_last st i) as Hlast.
    destruct (bcn_cycle st i) as [events out]. cbn [fst snd] in *.
    rewrite telemetry_requests_app, Hreq.
    destruct out as [st1|].
    + specialize (Hlast st1 eq_refl).
      destruct (IH st1) as (k & Hk & Hend).
      destruct (transmitting i && telemetry_due st i).
      * exists (S k). split.
        -- rewrite Hk. reflexivity.
        -- intros st' Hrun. rewrite (Hend st' Hrun), Hlast.
           unfold tick_add, wrap. rewrite Zplus_mod_idemp_l.
           f_equal. lia.
      * exists k. split.
        -- rewrite Hk. reflexivity.
        -- intros st' Hrun. rewrite (Hend st' Hrun), Hlast. reflexivity.
    + destruct (transmitting i && telemetry_due st i).
      * exists 1%nat. split; [reflexivity | discriminate].
      * exists 0%nat. split; [reflexivity | discriminate].
Qed.

(** X15.  Sending a group lowers the elapsed time the next test will see by
    exactly one [tel_enc_cycle] (it is not reset to zero); so at the same
    counter reading the group is due again exactly when two or more
    periods had elapsed. *)
Theorem sending_a_group_takes_one_period_off
    (st : bcn_state) (i j : cycle_in) :
  0 <= CH_CFG_ST_RESOLUTION ch ->
  0 <= tel_enc_cycle conf_sram ->
  telemetry_due st i = true ->
  tel_enc_cycle conf_sram
    <= chVTTimeElapsedSinceX ch (in_now j) (last_conf_transmission st) ->
  chVTTimeElapsedSinceX ch (in_now j)
    (last_conf_transmission (after_telemetry st i))
  = chVTTimeElapsedSinceX ch (in_now j) (last_conf_transmission st)
    - tel_enc_cycle conf_sram /\
  (telemetry_due (after_telemetry st i) j = true <->
   2 * tel_enc_cycle conf_sram
     <= chVTTimeElapsedSinceX ch (in_now j) (last_conf_transmission st)).
Proof.
  intros Hw Htec Hdue Hel.
  assert (Hm : 0 < 2 ^ CH_CFG_ST_RESOLUTION ch) by (apply Z.pow_pos_nonneg; lia).
  assert (Hdrop :
    chVTTimeElapsedSinceX ch (in_now j)
      (last_conf_transmission (after_telemetry st i))
    = chVTTimeElapsedSinceX ch (in_now j) (last_conf_transmission st)
      - tel_enc_cycle conf_sram).
  { unfold Beacon.after_telemetry. rewrite Hdue. cbn [last_conf_transmission].
    unfold chVTTimeElapsedSinceX, tick_sub, tick_add, wrap in *.
    set (m := 2 ^ CH_CFG_ST_RESOLUTION ch) in *.
    rewrite Zminus_mod_idemp_r.
    replace (in_now j - (last_conf_transmission st + tel_enc_cycle conf_sram))
      with (in_now j - last_conf_transmission st - tel_enc_cycle conf_sram)
      by lia.
    rewrite <- Zminus_mod_idemp_l.
    pose proof (Z.mod_pos_bound (in_now j - last_conf_transmission st) m Hm).
    apply Z.mod_small. lia. }
  split; [exact Hdrop|].
  unfold Beacon.telemetry_due at 1. rewrite Hdrop.
  unfold Beacon.telemetry_due in Hdue.
  apply andb_true_iff in Hdue. destruct Hdue as [Hnz _].
  rewrite Hnz. cbn [andb].
  rewrite Z.leb_le. lia.
Qed.

(** *** Whole runs: [run_once] and the trigger *)

Lemma transmitted_cycle_at_most_six st i :
  (List.length (transmitted (fst (bcn_cycle st i))) <= 6)%nat.
Proof.
  destruct (transmitting i) eqn:Ht.
  - rewrite (bcn_cycle_transmitting st i Ht), next_trigger_shape. cbn [fst].
    change (Collect :: ?l) with ([Collect] ++ l).
    rewrite !transmitted_app, position_step_transmitted, aprsd_step_transmitted.
    rewrite !List.length_app.
    pose proof (filter_length_le (in_encode i) [position_pdu i]) as Hp.
    pose proof (filter_length_le (in_encode i) [aprsd_pdu]) as Ha.
    cbn [List.length] in Hp, Ha.
    assert (Hg : (List.length
                    (transmitted (if telemetry_due st i then telemetry_group i else []))
                  <= 4)%nat).
    { destruct (telemetry_due st i); [|cbn; lia].
      rewrite telemetry_group_transmitted.
      pose proof (filter_length_le (in_encode i)
                    (map telemetry_pdu telemetry_types)) as Hf.
      rewrite length_map in Hf. rewrite telemetry_types_are_four in *.
      cbn [List.length] in Hf. exact Hf. }
    destruct (run_once conf); cbn [transmitted List.length]; lia.
  - destruct (transmitting_false i Ht) as [Hs | [Hs Hv]].
    + rewrite (bcn_cycle_sleeping st i Hs), next_trigger_shape. cbn [fst].
      destruct (run_once conf); cbn; lia.
    + rewrite (bcn_cycle_waiting_for_position st i Hs Hv). cbn. lia.
Qed.

(** X16.  A [run_once] thread hands at most six packets to the radio in its whole
    life, among them at most one position packet: it exits at the end of
    the first cycle that does not end in waiting for a position. *)
Theorem run_once_transmits_one_cycle (b : boot_in) (ins : list cycle_in) :
  run_once conf = true ->
  (List.length (transmitted (bcnThread b ins)) <= 6)%nat /\
  (List.length (position_snapshots (bcnThread b ins)) <= 1)%nat.
Proof.
  intros Honce.
  unfold Beacon.bcnThread, Beacon.bcn_init.
  rewrite transmitted_app, position_snapshots_app.
  cbn [transmitted position_snapshots app].
  generalize (Build_bcn_state
    (tick_sub ch (now_conf b) (tel_enc_cycle conf_sram)) (now_time b)).
  induction ins as [|i ins IH]; intro st; [cbn; lia|].
  cbn [Beacon.bcn_loop].
  pose proof (transmitted_cycle_at_most_six st i) as H6.
  pose proof (bcn_cycle_snapshots st i) as Hsnap.
  destruct (transmitting i) eqn:Ht.
  - rewrite (bcn_cycle_transmitting st i Ht) in *.
    rewrite next_trigger_shape in *. rewrite Honce in *. cbn [fst snd] in *.
    rewrite app_nil_r. rewrite Hsnap. cbn [List.length]. lia.
  - destruct (transmitting_false i Ht) as [Hs | [Hs Hv]].
    + rewrite (bcn_cycle_sleeping st i Hs), next_trigger_shape, Honce.
      cbn. lia.
    + rewrite (bcn_cycle_waiting_for_position st i Hs Hv).
      cbn [app transmitted position_snapshots]. apply IH.
Qed.

Lemma waits_app tr1 tr2 : waits (tr1 ++ tr2) = waits tr1 ++ waits tr2.
Proof.
  induction tr1 as [|e tr1 IH]; [reflexivity|].
  destruct e; cbn [app waits]; rewrite IH; reflexivity.
Qed.

Lemma waits_group i : waits (telemetry_group i) = [].
Proof.
  unfold Beacon.telemetry_group.
  induction telemetry_types as [|t ts IH]; [reflexivity|].
  cbn [flat_map]. rewrite waits_app, IH, app_nil_r.
  unfold Beacon.telemetry_step.
  destruct (in_encode i (telemetry_pdu t)); reflexivity.
Qed.

(** X17.  Without [run_once], every cycle that does not end in waiting for a
    position calls [waitForTrigger] once, with the configured cycle and
    with the value the previous call returned (the boot reading for the
    first call): the schedule is chained from trigger to trigger, and the
    60 s polls for a position do not move it. *)
Theorem trigger_times_are_chained (st : bcn_state) (ins : list cycle_in) :
  run_once conf = false ->
  let reached := filter (fun i => negb (waiting_for_position i)) ins in
  waits (bcn_loop st ins)
  = map (fun t => (t, cycle (beacon conf)))
      (removelast (time st :: map in_trigger reached)).
Proof.
  intros Hloop. cbv zeta.
  revert st. induction ins as [|i ins IH]; intro st; [reflexivity|].
  cbn [Beacon.bcn_loop filter].
  destruct (transmitting i) eqn:Ht.
  - assert (Hw : waiting_for_position i = false).
    { unfold Beacon.waiting_for_position. unfold Beacon.transmitting in Ht.
      apply andb_true_iff in Ht. destruct Ht as [Hs Hv].
      apply negb_true_iff in Hv. rewrite Hv. apply andb_false_r. }
    rewrite Hw. cbn [negb map].
    rewrite (bcn_cycle_transmitting st i Ht), next_trigger_shape, Hloop.
    cbn [fst snd].
    change (Collect :: ?l) with ([Collect] ++ l).
    rewrite <- !app_assoc, !waits_app.
    assert (Hg : waits (if telemetry_due st i then telemetry_group i else []) = [])
      by (destruct (telemetry_due st i); [apply waits_group | reflexivity]).
    assert (Hp : waits (position_step i) = [])
      by (unfold Beacon.position_step;
          destruct (in_encode i (position_pdu i)); reflexivity).
    assert (Ha : waits (aprsd_step i) = [])
      by (unfold Beacon.aprsd_step;
          destruct (in_encode i aprsd_pdu); reflexivity).
    rewrite Hg, Hp, Ha, IH, after_telemetry_time.
    cbn [waits app time map removelast]. reflexivity.
  - destruct (transmitting_false i Ht) as [Hs | [Hs Hv]].
    + assert (Hw : waiting_for_position i = false)
        by (unfold Beacon.waiting_for_position; rewrite Hs; reflexivity).
      rewrite Hw. cbn [negb map].
      rewrite (bcn_cycle_sleeping st i Hs), next_trigger_shape, Hloop.
      cbn [fst snd app waits]. rewrite IH.
      cbn [time map removelast]. reflexivity.
    + assert (Hw : waiting_for_position i = true)
        by (unfold Beacon.waiting_for_position; rewrite Hs, Hv; reflexivity).
      rewrite Hw. cbn [negb].
      rewrite (bcn_cycle_waiting_for_position st i Hs Hv).
      cbn [app waits]. apply IH.
Qed.

(** *** A zero telemetry-configuration cycle, over the whole run *)

Lemma without_waits_app tr1 tr2 :
  without_waits (tr1 ++ tr2) = without_waits tr1 ++ without_waits tr2.
Proof.
  induction tr1 as [|e tr1 IH]; [reflexivity|].
  destruct e; cbn [app without_waits]; rewrite IH; reflexivity.
Qed.

Lemma transmitting_is_not_waiting i :
  transmitting i = true -> waiting_for_position i = false.
Proof.
  unfold Beacon.transmitting, Beacon.waiting_for_position. intros Ht.
  apply andb_true_iff in Ht. destruct Ht as [_ Hv].
  apply negb_true_iff in Hv. rewrite Hv. apply andb_false_r.
Qed.

(** What one pass of the loop calls, apart from [waitForTrigger], when
    [tel_enc_cycle] is zero. *)
Local Abbreviation zero_cycle_pass :=
  (fun i : cycle_in =>
     [Collect]
     ++ (if transmitting i then
           (if in_encode i (position_pdu i)
            then [Encoded (position_pdu i) true;
                  TransmitOnRadio (position_pdu i) (freq (radio_conf conf)) 0 0
                    (pwr (radio_conf conf)) (mod_ (radio_conf conf))
                    (cca (radio_conf conf)) (in_radio i (position_pdu i));
                  Sleep (TIME_S2I ch 5)]
            else [Encoded (position_pdu i) false])
           ++ (if in_encode i aprsd_pdu
               then [Encoded aprsd_pdu true;
                     TransmitOnRadio aprsd_pdu (freq (radio_conf conf)) 0 0
                       (pwr (radio_conf conf)) (mod_ (radio_conf conf))
                       (cca (radio_conf conf)) (in_radio i aprsd_pdu);
                     Sleep (TIME_S2I ch 5)]
               else [Encoded aprsd_pdu false])
         else if waiting_for_position i then [Sleep (TIME_S2I ch 60)]
         else [])
     ++ (if run_once conf && negb (waiting_for_position i) then [Exit] else [])).

Lemma bcn_cycle_zero st i :
  tel_enc_cycle conf_sram = 0 ->
  without_waits (fst (bcn_cycle st i)) = zero_cycle_pass i /\
  (run_once conf && negb (waiting_for_position i) = true ->
   snd (bcn_cycle st i) = Exited) /\
  (run_once conf && negb (waiting_for_position i) = false ->
   exists st', snd (bcn_cycle st i) = Running st').
Proof.
  intros Hz. cbv beta.
  destruct (transmitting i) eqn:Ht.
  - rewrite (transmitting_is_not_waiting i Ht).
    rewrite (bcn_cycle_trace st i Ht).
    rewrite (bcn_cycle_transmitting st i Ht), next_trigger_shape.
    rewrite (telemetry_never_due_when_zero st i Hz).
    cbn [snd negb flat_map]. rewrite andb_true_r.
    destruct (run_once conf); (split; [|split; [intros H|intros H]]);
      try discriminate; try reflexivity; try (eexists; reflexivity);
      destruct (in_encode i (position_pdu i)), (in_encode i aprsd_pdu);
      reflexivity.
  - destruct (transmitting_false i Ht) as [Hs | [Hs Hv]].
    + assert (Hw : waiting_for_position i = false)
        by (unfold Beacon.waiting_for_position; rewrite Hs; reflexivity).
      rewrite Hw, (bcn_cycle_sleeping st i Hs), next_trigger_shape.
      cbn [fst snd negb]. rewrite andb_true_r.
      destruct (run_once conf); (split; [|split; [intros H|intros H]]);
        try discriminate; try reflexivity; eexists; reflexivity.
    + assert (Hw : waiting_for_position i = true)
        by (unfold Beacon.waiting_for_position; rewrite Hs, Hv; reflexivity).
      rewrite Hw, (bcn_cycle_waiting_for_position st i Hs Hv).
      cbn [fst snd negb]. rewrite andb_false_r.
      split; [reflexivity|]. split; [discriminate|].
      intros _. eexists; reflexivity.
Qed.

Lemma bcn_loop_zero ins :
  tel_enc_cycle conf_sram = 0 ->
  forall st,
    without_waits (bcn_loop st ins)
    = flat_map zero_cycle_pass (Beacon.executed isPositionValid conf ins).
Proof.
  intros Hz. induction ins as [|i ins IH]; intro st; [reflexivity|].
  cbn [Beacon.bcn_loop Beacon.executed flat_map].
  destruct (bcn_cycle_zero st i Hz) as (Htr & Hexit & Hrun).
  destruct (bcn_cycle st i) as [events out]. cbn [fst snd] in *.
  rewrite without_waits_app, Htr.
  destruct (run_once conf && negb (waiting_for_position i)) eqn:Hend.
  - rewrite (Hexit eq_refl). reflexivity.
  - destruct (Hrun eq_refl) as [st' Hst']. rewrite Hst', IH. reflexivity.
Qed.

(** C9.  With [conf_sram.tel_enc_cycle] equal to zero no call of the whole
    run, encoder or radio, carries a telemetry-configuration packet, while
    the position packet and the APRSD message go out as usual.  When the
    collector answers every request with a snapshot (no [NULL]), the calls
    of the run, the [waitForTrigger] calls left aside, are the two calls
    before the loop and then, for every pass of the loop that is run: the
    request to the collector; when the pass transmits, the encoder call
    for the position packet (with the hand-over to the radio and a 5 s
    sleep if a packet was returned) and then the same for the APRSD
    message; when the thread is awake without a valid position, a 60 s
    sleep; and the exit of the thread when [run_once] ends it. *)
Theorem zero_cycle_sends_no_telemetry_configuration
    (b : boot_in) (ins : list cycle_in) :
  tel_enc_cycle conf_sram = 0 ->
  let tr := bcnThread b ins in
  free_of_telemetry_configuration tr = true /\
  (Forall (fun i => in_dataPoint i <> None) ins ->
   without_waits tr
   = [InitDataCollector;
     SleepUntil (tick_add ch (now_delay b) (init_delay (beacon conf)))]
    ++ flat_map
         (fun i : cycle_in =>
            [Collect]
            ++ (if transmitting i then
                  (if in_encode i (position_pdu i)
                   then [Encoded (position_pdu i) true;
                         TransmitOnRadio (position_pdu i)
                           (freq (radio_conf conf)) 0 0
                           (pwr (radio_conf conf)) (mod_ (radio_conf conf))
                           (cca (radio_conf conf)) (in_radio i (position_pdu i));
                         Sleep (TIME_S2I ch 5)]
                   else [Encoded (position_pdu i) false])
                  ++ (if in_encode i aprsd_pdu
                      then [Encoded aprsd_pdu true;
                            TransmitOnRadio aprsd_pdu
                              (freq (radio_conf conf)) 0 0
                              (pwr (radio_conf conf)) (mod_ (radio_conf conf))
                              (cca (radio_conf conf)) (in_radio i aprsd_pdu);
                            Sleep (TIME_S2I ch 5)]
                      else [Encoded aprsd_pdu false])
                else if waiting_for_position i then [Sleep (TIME_S2I ch 60)]
                else [])
            ++ (if run_once conf && negb (waiting_for_position i)
                then [Exit] else []))
         (Beacon.executed isPositionValid conf ins)) /\
  transmitted tr = map fst (filter snd (encodes tr)) /\
  forall st i,
    transmitting i = true ->
    map fst (encodes (fst (bcn_cycle st i))) = [position_pdu i; aprsd_pdu] /\
    transmitted (fst (bcn_cycle st i))
      = filter (in_encode i) [position_pdu i; aprsd_pdu].
Proof.
  intros Hz tr. subst tr. split; [|split; [|split]].
  - unfold Beacon.bcnThread, Beacon.bcn_init.
    unfold free_of_telemetry_configuration.
    rewrite forallb_app. cbn [forallb telemetry_configuration_event negb andb].
    apply (bcn_loop_free ins Hz).
  - intros _. unfold Beacon.bcnThread, Beacon.bcn_init.
    rewrite without_waits_app. cbn [without_waits].
    rewrite (bcn_loop_zero ins Hz). reflexivity.
  - unfold Beacon.bcnThread, Beacon.bcn_init.
    apply handed_over_app; [reflexivity | apply handed_over_loop].
  - intros st i Ht.
    rewrite (bcn_cycle_transmitting st i Ht). cbn [fst].
    rewrite (telemetry_never_due_when_zero st i Hz). cbn [app].
    cbn [encodes transmitted].
    rewrite !encodes_app, !transmitted_app.
    rewrite position_step_encodes, aprsd_step_encodes.
    rewrite position_step_transmitted, aprsd_step_transmitted.
    destruct (next_trigger_quiet (after_telemetry st i) i) as (He & Htr & _).
    rewrite He, Htr. split; [reflexivity|].
    cbn [filter].
    destruct (in_encode i (position_pdu i)), (in_encode i aprsd_pdu);
      reflexivity.
Qed.

End BeaconThread.

(** ** Runs on the sample inputs *)

Section Runs.
Import ChTime Collector Beacon Samples.

(** [readLog] on the three-slot sample log. *)
Lemma readLog_prints_used_slots_witness :
  exists st',
    Shell.readLog log_slot log_flash 4 0 [] Shell.boot_state = Some st' /\
    Shell.console st'
    = Shell.console Shell.boot_state
      ++ {| Shell.fmt := Shell.readLog_header; Shell.args := [] |}
      :: Shell.slot_lines log_slot log_flash 0 3 /\
    List.length (Shell.slot_lines log_slot log_flash 0 3)
      = List.length (Shell.used_slots log_slot log_flash 3) /\
    Shell.debug_on_usb st' = Shell.debug_on_usb Shell.boot_state /\
    Shell.radio st' = Shell.radio Shell.boot_state /\
    Shell.lookups st' = Shell.lookups Shell.boot_state.
Proof.
  apply (readLog_prints_used_slots log_slot log_flash 3 4 0 [] Shell.boot_state).
  - vm_compute. reflexivity.
  - reflexivity.
  - intros j Hj. destruct j as [|[|[|j]]]; [discriminate..|lia].
  - lia.
Defined.

(** The sample log has two slots in use, so two record lines. *)
Example sample_log_lines :
  Shell.used_slots log_slot log_flash 3 = [0%nat; 2%nat] /\
  map Shell.args (Shell.slot_lines log_slot log_flash 0 3)
  = [ Shell.readLog_args 0x080C0000 (log_flash 0x080C0000);
      Shell.readLog_args 0x080C0100 (log_flash 0x080C0100) ].
Proof. split; reflexivity. Qed.

(** A cycle whose snapshot has lost the GPS. *)
Lemma invalid_position_is_never_sent_witness :
  encodes (fst (bcn_cycle ch32 position_valid sram (bcn_conf false) booted
                  (cycle_at two_minutes GPS_LOSS))) = [] /\
  transmitted (fst (bcn_cycle ch32 position_valid sram (bcn_conf false) booted
                      (cycle_at two_minutes GPS_LOSS))) = [] /\
  (in_p_sleep (cycle_at two_minutes GPS_LOSS) = false ->
   bcn_cycle ch32 position_valid sram (bcn_conf false) booted
     (cycle_at two_minutes GPS_LOSS)
   = ([Collect; Sleep (TIME_S2I ch32 60)], Running booted) /\
   forall ins,
     bcn_loop ch32 position_valid sram (bcn_conf false) booted
       (cycle_at two_minutes GPS_LOSS :: ins)
     = [Collect; Sleep (TIME_S2I ch32 60)]
       ++ bcn_loop ch32 position_valid sram (bcn_conf false) booted ins).
Proof.
  apply (invalid_position_is_never_sent ch32 position_valid sram (bcn_conf false)
           booted (cycle_at two_minutes GPS_LOSS)).
  reflexivity.
Defined.

(** The APRSD message with the base station enabled. *)
Lemma aprsd_goes_to_base_or_self_witness :
  exists m,
    aprsd_messages (fst (bcn_cycle ch32 position_valid sram_with_base
                           (bcn_conf false) booted
                           (cycle_at two_minutes GPS_LOCKED1))) = [m] /\
    originator m = call (bcn_conf false) /\
    recipient m = (if enabled (base sram_with_base)
                   then base_call (base sram_with_base)
                   else call (bcn_conf false)) /\
    via m = (if enabled (base sram_with_base)
             then base_path (base sram_with_base)
             else path (bcn_conf false)) /\
    ack_requested m = false /\
    (in_encode (cycle_at two_minutes GPS_LOCKED1) (Aprsd m) = true ->
     In (Aprsd m)
        (transmitted (fst (bcn_cycle ch32 position_valid sram_with_base
                             (bcn_conf false) booted
                             (cycle_at two_minutes GPS_LOCKED1))))).
Proof.
  apply (aprsd_goes_to_base_or_self ch32 position_valid sram_with_base
           (bcn_conf false) booted (cycle_at two_minutes GPS_LOCKED1)).
  reflexivity.
Defined.

Example aprsd_sample_addresses :
  aprsd_messages (fst (bcn_cycle ch32 position_valid sram_with_base
                         (bcn_conf false) booted
                         (cycle_at two_minutes GPS_LOCKED1)))
  = [ {| originator := "DL7AD-12"; via := "WIDE2-1"; recipient := "DL7AD-7";
         ack_requested := false |} ] /\
  aprsd_messages (fst (bcn_cycle ch32 position_valid sram
                         (bcn_conf false) booted
                         (cycle_at two_minutes GPS_LOCKED1)))
  = [ {| originator := "DL7AD-12"; via := "WIDE1-1"; recipient := "DL7AD-12";
         ack_requested := false |} ].
Proof. split; reflexivity. Qed.

(** A run of three cycles with [tel_enc_cycle] zero: a 60 s poll, then
    two cycles that each send the position packet and the APRSD message. *)
Lemma zero_cycle_sends_no_telemetry_configuration_witness :
  free_of_telemetry_configuration
    (bcnThread ch32 position_valid sram_zero (bcn_conf false) boot three_cycles)
  = true /\
  without_waits
    (bcnThread ch32 position_valid sram_zero (bcn_conf false) boot three_cycles)
  = [ InitDataCollector;
      SleepUntil 0;
      Collect;
      Sleep (TIME_S2I ch32 60);
      Collect;
      Encoded (position_pdu (bcn_conf false) second_cycle) true;
      transmitOnRadio (bcn_conf false) second_cycle
        (position_pdu (bcn_conf false) second_cycle);
      Sleep (TIME_S2I ch32 5);
      Encoded (aprsd_pdu sram_zero (bcn_conf false)) true;
      transmitOnRadio (bcn_conf false) second_cycle
        (aprsd_pdu sram_zero (bcn_conf false));
      Sleep (TIME_S2I ch32 5);
      Collect;
      Encoded (position_pdu (bcn_conf false) third_cycle) true;
      transmitOnRadio (bcn_conf false) third_cycle
        (position_pdu (bcn_conf false) third_cycle);
      Sleep (TIME_S2I ch32 5);
      Encoded (aprsd_pdu sram_zero (bcn_conf false)) true;
      transmitOnRadio (bcn_conf false) third_cycle
        (aprsd_pdu sram_zero (bcn_conf false));
      Sleep (TIME_S2I ch32 5) ] /\
  transmitted
    (bcnThread ch32 position_valid sram_zero (bcn_conf false) boot three_cycles)
  = map fst
      (filter snd
         (encodes (bcnThread ch32 position_valid sram_zero (bcn_conf false) boot
                     three_cycles))) /\
  forall st i,
    transmitting position_valid i = true ->
    map fst (encodes (fst (bcn_cycle ch32 position_valid sram_zero
                             (bcn_conf false) st i)))
    = [position_pdu (bcn_conf false) i; aprsd_pdu sram_zero (bcn_conf false)] /\
    transmitted (fst (bcn_cycle ch32 position_valid sram_zero
                        (bcn_conf false) st i))
    = filter (in_encode i)
        [position_pdu (bcn_conf false) i; aprsd_pdu sram_zero (bcn_conf false)].
Proof.
  destruct (zero_cycle_sends_no_telemetry_configuration ch32 position_valid
              sram_zero (bcn_conf false) boot three_cycles eq_refl)
    as (Hfree & Hrun & Hradio & Hcycle).
  split; [exact Hfree|]. split; [|split; [exact Hradio | exact Hcycle]].
  apply Hrun.
  repeat (constructor; [discriminate|]). constructor.
Defined.

(** C2, as stated, at a thread configured with [run_once]: the sleep
    condition is not met and the snapshot is valid, the three kinds of
    packet go out, but the cycle does not end in a wait for the next
    trigger: the last call is [chThdExit] and the thread is gone. *)
Lemma run_once_cycle_exits_instead_of_waiting :
  in_p_sleep (cycle_at two_minutes GPS_LOCKED1) = false /\
  position_valid (in_dataPoint (cycle_at two_minutes GPS_LOCKED1)) = true /\
  List.length (transmitted (fst (bcn_cycle ch32 position_valid sram (bcn_conf true)
                                   booted (cycle_at two_minutes GPS_LOCKED1))))
    = 6%nat /\
  ends_waiting (fst (bcn_cycle ch32 position_valid sram (bcn_conf true)
                       booted (cycle_at two_minutes GPS_LOCKED1))) = false /\
  last (fst (bcn_cycle ch32 position_valid sram (bcn_conf true)
               booted (cycle_at two_minutes GPS_LOCKED1))) Collect = Exit /\
  snd (bcn_cycle ch32 position_valid sram (bcn_conf true)
         booted (cycle_at two_minutes GPS_LOCKED1)) = Exited.
Proof. repeat split; vm_compute; reflexivity. Qed.

(** The same cycle when the encoder gets no packet object for the
    telemetry configuration: the group is due, yet only the position
    packet and the APRSD message reach the radio. *)
Example short_of_packets_cycle :
  telemetry_due ch32 sram booted (cycle_short_of_packets two_minutes) = true /\
  transmitted (fst (bcn_cycle ch32 position_valid sram (bcn_conf false) booted
                      (cycle_short_of_packets two_minutes)))
  = [ position_pdu (bcn_conf false) (cycle_short_of_packets two_minutes);
      aprsd_pdu sram (bcn_conf false) ].
Proof. split; vm_compute; reflexivity. Qed.

(** A cycle two minutes after boot: the group is due, every encoder call
    returns a packet, and the thread goes on to wait for the trigger. *)
Lemma transmitting_cycle_order_witness :
  fst (bcn_cycle ch32 position_valid sram (bcn_conf false) booted good_cycle)
  = [Collect]
    ++ flat_map
         (fun p => [ Encoded p true;
                     transmitOnRadio (bcn_conf false) good_cycle p;
                     Sleep (TIME_S2I ch32 5) ])
         (map (telemetry_pdu (bcn_conf false)) [0; 1; 2; 3])
    ++ [ Encoded (position_pdu (bcn_conf false) good_cycle) true;
         transmitOnRadio (bcn_conf false) good_cycle
           (position_pdu (bcn_conf false) good_cycle);
         Sleep (TIME_S2I ch32 5) ]
    ++ [ Encoded (aprsd_pdu sram (bcn_conf false)) true;
         transmitOnRadio (bcn_conf false) good_cycle (aprsd_pdu sram (bcn_conf false));
         Sleep (TIME_S2I ch32 5) ]
    ++ [ WaitForTrigger (time booted) (cycle (beacon (bcn_conf false))) ] /\
  map fst (encodes (fst (bcn_cycle ch32 position_valid sram (bcn_conf false)
                           booted good_cycle)))
  = map (telemetry_pdu (bcn_conf false)) [0; 1; 2; 3]
    ++ [position_pdu (bcn_conf false) good_cycle; aprsd_pdu sram (bcn_conf false)] /\
  transmitted (fst (bcn_cycle ch32 position_valid sram (bcn_conf false)
                      booted good_cycle))
  = map (telemetry_pdu (bcn_conf false)) [0; 1; 2; 3]
    ++ [position_pdu (bcn_conf false) good_cycle; aprsd_pdu sram (bcn_conf false)] /\
  sleeps (fst (bcn_cycle ch32 position_valid sram (bcn_conf false)
                 booted good_cycle))
  = [ TIME_S2I ch32 5; TIME_S2I ch32 5; TIME_S2I ch32 5; TIME_S2I ch32 5;
      TIME_S2I ch32 5; TIME_S2I ch32 5 ] /\
  last (fst (bcn_cycle ch32 position_valid sram (bcn_conf false)
               booted good_cycle)) Collect
  = WaitForTrigger (time booted) (cycle (beacon (bcn_conf false))) /\
  snd (bcn_cycle ch32 position_valid sram (bcn_conf false) booted good_cycle)
  = Running {| last_conf_transmission :=
                 last_conf_transmission
                   (after_telemetry ch32 sram booted good_cycle);
               time := in_trigger good_cycle |}.
Proof.
  apply (transmitting_cycle_order ch32 position_valid sram (bcn_conf false)
           booted good_cycle).
  reflexivity.
Defined.

(** Past the window, on a 32-bit tick counter at 10 kHz with
    [tel_enc_cycle] of 10800 s (108000000 ticks): when the first valid
    snapshot of the boot arrives with the counter 10800 s short of a full
    turn, the elapsed-time test reads 0, the configuration group is
    skipped, and the first packet handed to the radio is the position
    packet. *)
Lemma wrapped_counter_sends_position_first :
  tel_enc_cycle sram = 108000000 /\
  chVTTimeElapsedSinceX ch32 (in_now (cycle_at late GPS_LOCKED1))
    (last_conf_transmission
       (snd (bcn_init ch32 sram (bcn_conf false) boot))) = 0 /\
  transmitted (bcnThread ch32 position_valid sram (bcn_conf false) boot
                 [cycle_at late GPS_LOCKED1])
  = [ position_pdu (bcn_conf false) (cycle_at late GPS_LOCKED1);
      aprsd_pdu sram (bcn_conf false) ] /\
  free_of_telemetry_configuration
    (bcnThread ch32 position_valid sram (bcn_conf false) boot
       [cycle_at late GPS_LOCKED1]) = true.
Proof. repeat split; vm_compute; reflexivity. Qed.

(** One tick earlier the group goes out first. *)
Example last_tick_of_the_window :
  counter_in_window ch32 position_valid sram (bcn_conf false) boot
    [cycle_at (late - 1) GPS_LOCKED1] = true /\
  transmitted (bcnThread ch32 position_valid sram (bcn_conf false) boot
                 [cycle_at (late - 1) GPS_LOCKED1])
  = map (telemetry_pdu (bcn_conf false)) [0; 1; 2; 3]
    ++ [ position_pdu (bcn_conf false) (cycle_at (late - 1) GPS_LOCKED1);
         aprsd_pdu sram (bcn_conf false) ].
Proof. split; vm_compute; reflexivity. Qed.

(** C1, as stated, at a boot in which the encoder gets no packet object
    for the telemetry configuration.  [tel_enc_cycle] is non-zero
    (108000000 ticks), the first cycle transmits two minutes after thread
    start and its elapsed-time test holds, so the four encoder calls for
    the configuration come first; but each returns [NULL] and is skipped,
    and the first packet handed to the radio in this boot is the position
    packet: no telemetry-configuration packet goes out before it. *)
Lemma short_of_packets_boot :
  tel_enc_cycle sram = 108000000 /\
  first_transmitting position_valid (bcn_conf false)
    [cycle_short_of_packets two_minutes]
  = Some (cycle_short_of_packets two_minutes) /\
  telemetry_due ch32 sram
    (snd (bcn_init ch32 sram (bcn_conf false) boot))
    (cycle_short_of_packets two_minutes) = true /\
  map fst (encodes (bcnThread ch32 position_valid sram (bcn_conf false) boot
                      [cycle_short_of_packets two_minutes]))
  = map (telemetry_pdu (bcn_conf false)) [0; 1; 2; 3]
    ++ [ position_pdu (bcn_conf false) (cycle_short_of_packets two_minutes);
         aprsd_pdu sram (bcn_conf false) ] /\
  transmitted (bcnThread ch32 position_valid sram (bcn_conf false) boot
                 [cycle_short_of_packets two_minutes])
  = [ position_pdu (bcn_conf false) (cycle_short_of_packets two_minutes);
      aprsd_pdu sram (bcn_conf false) ].
Proof. repeat split; vm_compute; reflexivity. Qed.

(** A boot that first waits for a position and then transmits. *)
Lemma first_position_follows_telemetry_configuration_witness :
  (exists pre rest,
     bcnThread ch32 position_valid sram (bcn_conf false) boot first_boot
     = pre
       ++ flat_map
            (fun p =>
               (if in_encode second_cycle p
                then [Encoded p true; transmitOnRadio (bcn_conf false) second_cycle p]
                else [Encoded p false])
               ++ [Sleep (TIME_S2I ch32 5)])
            (map (telemetry_pdu (bcn_conf false)) [0; 1; 2; 3])
       ++ (if in_encode second_cycle (position_pdu (bcn_conf false) second_cycle)
           then [ Encoded (position_pdu (bcn_conf false) second_cycle) true;
                  transmitOnRadio (bcn_conf false) second_cycle
                    (position_pdu (bcn_conf false) second_cycle);
                  Sleep (TIME_S2I ch32 5) ]
           else [Encoded (position_pdu (bcn_conf false) second_cycle) false])
       ++ rest /\
     encodes pre = [] /\
     transmitted pre = [] /\
     encodes (bcnThread ch32 position_valid sram (bcn_conf false) boot first_boot)
     = map (fun p => (p, in_encode second_cycle p))
         (map (telemetry_pdu (bcn_conf false)) [0; 1; 2; 3]
          ++ [position_pdu (bcn_conf false) second_cycle])
       ++ encodes rest) /\
  transmitted (bcnThread ch32 position_valid sram (bcn_conf false) boot first_boot)
  = map fst
      (filter snd
         (encodes (bcnThread ch32 position_valid sram (bcn_conf false) boot
                     first_boot))).
Proof.
  apply (first_position_follows_telemetry_configuration ch32 position_valid
           sram (bcn_conf false) boot first_boot).
  - vm_compute. discriminate.
  - reflexivity.
  - reflexivity.
Defined.

End Runs.

(** ** portab.c *)

Section Board.
Import Portab.

Lemma pktGetNumRadios_loop_from (radios : list radio_config_t) (n : nat) :
  (n <= 255)%nat ->
  (exists r, nth_error radios n = Some r /\ is_none (unit_ r) = true) ->
  (forall j, (j < n)%nat ->
     exists r, nth_error radios j = Some r /\ is_none (unit_ r) = false) ->
  forall (m k fuel : nat),
    (k + m = n)%nat ->
    (m < fuel)%nat ->
    pktGetNumRadios_loop radios fuel (Z.of_nat k)
    = Some ((Z.of_nat n + 1) mod 256).
Proof.
  intros Hn (rn & Hrn & Hnone) Hbefore.
  induction m as [|m IH]; intros k fuel Hk Hfuel.
  - destruct fuel as [|fuel]; [lia|].
    replace k with n by lia.
    cbn [pktGetNumRadios_loop]. rewrite Nat2Z.id, Hrn, Hnone. reflexivity.
  - destruct fuel as [|fuel]; [lia|].
    cbn [pktGetNumRadios_loop]. rewrite Nat2Z.id.
    destruct (Hbefore k ltac:(lia)) as (r & Hr & Hunit).
    rewrite Hr, Hunit.
    replace ((Z.of_nat k + 1) mod 256) with (Z.of_nat (S k))
      by (rewrite Z.mod_small; lia).
    apply IH; lia.
Qed.

(** X18.  [pktGetNumRadios] returns the index of the first entry of the radio
    list whose unit is [PKT_RADIO_NONE], that is the number of radios in
    front of the terminator, for any list with at most 255 radios (with
    255 the 8-bit counter wraps to 0 and back). *)
Theorem pktGetNumRadios_counts_to_the_terminator
    (radios : list radio_config_t) (n fuel : nat) :
  (n <= 255)%nat ->
  (exists r, nth_error radios n = Some r /\ is_none (unit_ r) = true) ->
  (forall j, (j < n)%nat ->
     exists r, nth_error radios j = Some r /\ is_none (unit_ r) = false) ->
  (n < fuel)%nat ->
  pktGetNumRadios radios fuel = Some (Z.of_nat n).
Proof.
  intros Hn Hend Hbefore Hfuel.
  unfold pktGetNumRadios.
  change 0 with (Z.of_nat 0).
  rewrite (pktGetNumRadios_loop_from radios n Hn Hend Hbefore n 0 fuel)
    by lia.
  f_equal. rewrite Zminus_mod_idemp_l.
  replace (Z.of_nat n + 1 - 1) with (Z.of_nat n) by lia.
  apply Z.mod_small. lia.
Qed.

(** The board's own list holds one radio. *)
Lemma pktGetNumRadios_counts_to_the_terminator_witness :
  pktGetNumRadios (radio_list Samples.a_band) 2 = Some (Z.of_nat 1).
Proof.
  apply (pktGetNumRadios_counts_to_the_terminator
           (radio_list Samples.a_band) 1 2).
  - lia.
  - eexists. split; reflexivity.
  - intros j Hj. destruct j as [|j]; [|lia].
    eexists. split; reflexivity.
  - lia.
Defined.

(** X19.  [pktReadIOlines] on four line levels (0 or 1): TXD lands on bit 1 and
    RXD on bit 2, but [LINE_GPIO_PIN2] is not shifted and lands on bit 0
    together with [LINE_GPIO_PIN1].  So the result is below 8, bit 0 is
    the OR of the two GPIO pins, and exchanging the two pins' levels does
    not change it. *)
Theorem pktReadIOlines_merges_the_gpio_pins (pin1 txd rxd pin2 : Z) :
  0 <= pin1 <= 1 ->
  0 <= txd <= 1 ->
  0 <= rxd <= 1 ->
  0 <= pin2 <= 1 ->
  pktReadIOlines pin1 txd rxd pin2 = 4 * rxd + 2 * txd + Z.max pin1 pin2 /\
  pktReadIOlines pin1 txd rxd pin2 < 8 /\
  pktReadIOlines pin1 txd rxd pin2 = pktReadIOlines pin2 txd rxd pin1.
Proof.
  intros H1 H2 H3 H4.
  assert (E1 : pin1 = 0 \/ pin1 = 1) by lia.
  assert (E2 : txd = 0 \/ txd = 1) by lia.
  assert (E3 : rxd = 0 \/ rxd = 1) by lia.
  assert (E4 : pin2 = 0 \/ pin2 = 1) by lia.
  destruct E1, E2, E3, E4; subst; repeat split; reflexivity.
Qed.

Lemma pktReadIOlines_merges_the_gpio_pins_witness :
  pktReadIOlines 0 1 0 1 = 4 * 0 + 2 * 1 + Z.max 0 1 /\
  pktReadIOlines 0 1 0 1 < 8 /\
  pktReadIOlines 0 1 0 1 = pktReadIOlines 1 1 0 0.
Proof.
  apply (pktReadIOlines_merges_the_gpio_pins 0 1 0 1); lia.
Defined.

End Board.

(** ** Further runs on the sample inputs *)

Section MoreRuns.
Import ChTime Collector Beacon Samples.

(** A cycle in which the sleep condition is met. *)
Lemma sleeping_run_is_silent_witness :
  encodes (bcnThread ch32 position_valid sram (bcn_conf false) boot
             [ {| in_dataPoint := Some (snapshot GPS_LOCKED1); in_p_sleep := true;
                  in_now := two_minutes; in_encode := fun _ => true;
                  in_radio := fun _ => true; in_trigger := two_minutes |} ]) = [] /\
  transmitted (bcnThread ch32 position_valid sram (bcn_conf false) boot
             [ {| in_dataPoint := Some (snapshot GPS_LOCKED1); in_p_sleep := true;
                  in_now := two_minutes; in_encode := fun _ => true;
                  in_radio := fun _ => true; in_trigger := two_minutes |} ]) = [] /\
  sleeps (bcnThread ch32 position_valid sram (bcn_conf false) boot
             [ {| in_dataPoint := Some (snapshot GPS_LOCKED1); in_p_sleep := true;
                  in_now := two_minutes; in_encode := fun _ => true;
                  in_radio := fun _ => true; in_trigger := two_minutes |} ]) = [].
Proof.
  apply (sleeping_run_is_silent ch32 position_valid sram (bcn_conf false) boot
           [ {| in_dataPoint := Some (snapshot GPS_LOCKED1); in_p_sleep := true;
                in_now := two_minutes; in_encode := fun _ => true;
                in_radio := fun _ => true; in_trigger := two_minutes |} ]).
  repeat constructor.
Defined.

(** A [run_once] thread that sees no GPS lock in two cycles. *)
Lemma waiting_run_polls_every_minute_witness :
  bcn_loop ch32 position_valid sram (bcn_conf true) booted
    [cycle_at two_minutes GPS_LOSS; cycle_at (2 * two_minutes) GPS_OFF]
  = flat_map (fun _ => [Collect; Sleep (TIME_S2I ch32 60)])
      [cycle_at two_minutes GPS_LOSS; cycle_at (2 * two_minutes) GPS_OFF] /\
  bcn_loop_end ch32 position_valid sram (bcn_conf true) booted
    [cycle_at two_minutes GPS_LOSS; cycle_at (2 * two_minutes) GPS_OFF]
  = Running booted.
Proof.
  apply (waiting_run_polls_every_minute ch32 position_valid sram (bcn_conf true)
           booted
           [cycle_at two_minutes GPS_LOSS; cycle_at (2 * two_minutes) GPS_OFF]).
  repeat (constructor; [repeat split; try reflexivity; discriminate|]).
  constructor.
Defined.

(** Three periods after boot: the group is due, and due again after it
    has been sent. *)
Lemma sending_a_group_takes_one_period_off_witness :
  chVTTimeElapsedSinceX ch32 (in_now (cycle_at (2 * 108000000) GPS_LOCKED1))
    (last_conf_transmission
       (after_telemetry ch32 sram booted (cycle_at (2 * 108000000) GPS_LOCKED1)))
  = chVTTimeElapsedSinceX ch32 (in_now (cycle_at (2 * 108000000) GPS_LOCKED1))
      (last_conf_transmission booted)
    - tel_enc_cycle sram /\
  (telemetry_due ch32 sram
     (after_telemetry ch32 sram booted (cycle_at (2 * 108000000) GPS_LOCKED1))
     (cycle_at (2 * 108000000) GPS_LOCKED1) = true <->
   2 * tel_enc_cycle sram
     <= chVTTimeElapsedSinceX ch32 (in_now (cycle_at (2 * 108000000) GPS_LOCKED1))
          (last_conf_transmission booted)).
Proof.
  apply (sending_a_group_takes_one_period_off ch32 sram booted
           (cycle_at (2 * 108000000) GPS_LOCKED1)
           (cycle_at (2 * 108000000) GPS_LOCKED1)).
  - vm_compute. discriminate.
  - vm_compute. discriminate.
  - reflexivity.
  - vm_compute. discriminate.
Defined.

(** A [run_once] thread fed three good cycles transmits in the first. *)
Lemma run_once_transmits_one_cycle_witness :
  (List.length
     (transmitted (bcnThread ch32 position_valid sram (bcn_conf true) boot
                     [cycle_at two_minutes GPS_LOCKED1;
                      cycle_at (2 * two_minutes) GPS_LOCKED1;
                      cycle_at (3 * two_minutes) GPS_LOCKED1])) <= 6)%nat /\
  (List.length
     (position_snapshots (bcnThread ch32 position_valid sram (bcn_conf true) boot
                            [cycle_at two_minutes GPS_LOCKED1;
                             cycle_at (2 * two_minutes) GPS_LOCKED1;
                             cycle_at (3 * two_minutes) GPS_LOCKED1])) <= 1)%nat.
Proof.
  apply (run_once_transmits_one_cycle ch32 position_valid sram (bcn_conf true) boot
           [cycle_at two_minutes GPS_LOCKED1;
            cycle_at (2 * two_minutes) GPS_LOCKED1;
            cycle_at (3 * two_minutes) GPS_LOCKED1]).
  reflexivity.
Defined.

(** Three cycles, the second one waiting for a position. *)
Lemma trigger_times_are_chained_witness :
  waits (bcn_loop ch32 position_valid sram (bcn_conf false) booted
           [cycle_at two_minutes GPS_LOCKED1;
            cycle_at (2 * two_minutes) GPS_LOSS;
            cycle_at (3 * two_minutes) GPS_LOCKED1])
  = map (fun t => (t, cycle (beacon (bcn_conf false))))
      (removelast
         (time booted
          :: map in_trigger
               (filter (fun i => negb (waiting_for_position position_valid i))
                  [cycle_at two_minutes GPS_LOCKED1;
                   cycle_at (2 * two_minutes) GPS_LOSS;
                   cycle_at (3 * two_minutes) GPS_LOCKED1]))).
Proof.
  apply (trigger_times_are_chained ch32 position_valid sram (bcn_conf false) booted
           [cycle_at two_minutes GPS_LOCKED1;
            cycle_at (2 * two_minutes) GPS_LOSS;
            cycle_at (3 * two_minutes) GPS_LOCKED1]).
  reflexivity.
Defined.

Example trigger_times_sample :
  waits (bcn_loop ch32 position_valid sram (bcn_conf false) booted
           [cycle_at two_minutes GPS_LOCKED1;
            cycle_at (2 * two_minutes) GPS_LOSS;
            cycle_at (3 * two_minutes) GPS_LOCKED1])
  = [(0, 1200000); (1200000, 1200000)].
Proof. vm_compute. reflexivity. Qed.

End MoreRuns.
